(** * Bridge front end of newdex1: a shallow embedding

    The development follows the three TypeScript units that serve the
    cross-chain bridge page:

    - the [useBridgeContract] hook (the gateway to the BridgeCore contract),
    - the [checkFeeRequirements] function of the [useDexContract] hook,
    - the [Bridge] React component (guards, lock/burn selection, fee panel).

    Asynchronous contract calls are modelled by an oracle (what the chain
    answers to each call) and a trace (which calls were issued, in which
    order).  A JavaScript exception is the left injection of a sum. *)

From Stdlib Require Import ZArith NArith List String Ascii Bool Lia.
From Stdlib Require Import DecimalString.
Import ListNotations.

Local Open Scope string_scope.
Local Open Scope Z_scope.

(* ================================================================== *)
(** ** JavaScript values used by the code *)

Module JS.

(** A thrown value; the code only ever logs it or rethrows it. *)
Inductive Error : Type :=
| Thrown (msg : string).

(** The outcome of an expression that may throw. *)
Definition Res (A : Type) : Type := (Error + A)%type.

Definition isOk {A} (r : Res A) : bool :=
  match r with inr _ => true | inl _ => false end.

(** Truthiness of a string: only the empty string is falsy. *)
Definition truthyStr (s : string) : bool := negb (String.eqb s "").

(** Truthiness of a [string | null]. *)
Definition truthy (o : option string) : bool :=
  match o with
  | Some s => truthyStr s
  | None => false
  end.

(** [a || d] where [d] is a string known to be present. *)
Definition orStr (a : option string) (d : string) : string :=
  match a with
  | Some s => if truthyStr s then s else d
  | None => d
  end.

(** [a || b] on [string | null]. *)
Definition orElse (a b : option string) : option string :=
  if truthy a then a else b.

(** Truthiness of a [bigint | undefined]: [0n] and [undefined] are falsy. *)
Definition truthyBig (o : option Z) : bool :=
  match o with
  | Some z => negb (z =? 0)
  | None => false
  end.

(** [BigInt.prototype.toString()]: decimal, with a leading minus. *)
Definition bigToString (z : Z) : string :=
  NilZero.string_of_int (Z.to_int z).

(** BigInt division truncates towards zero. *)
Definition bigDiv (a b : Z) : Z := Z.quot a b.

(** [Number(x)] for a bigint [x]: the double nearest to [x], ties to the
    even mantissa.  It is [x] itself up to 2^53 in size; beyond, the bits
    below the 53 leading ones are rounded away.  (A bigint of 2^1024 or
    more gives [Infinity]; a contract's integers stay below 2^256.) *)
Definition toNumber (z : Z) : Z :=
  let a := Z.abs z in
  if a <? 2 ^ 53 then z
  else
    let e := Z.log2 a - 52 in
    let q := Z.shiftr a e in
    let r := a - Z.shiftl q e in
    let half := Z.shiftl 1 (e - 1) in
    let q' := if ((half <? r) || ((r =? half) && Z.odd q))%bool
              then q + 1 else q in
    Z.sgn z * Z.shiftl q' e.

(** *** Decimal digits *)

Definition isDigit (c : ascii) : bool :=
  let n := nat_of_ascii c in (48 <=? n)%nat && (n <=? 57)%nat.

Definition digitVal (c : ascii) : Z := Z.of_nat (nat_of_ascii c) - 48.

(** Longest prefix of decimal digits, and the rest. *)
Fixpoint spanDigits (s : string) : string * string :=
  match s with
  | String c r =>
      if isDigit c
      then let '(d, r') := spanDigits r in (String c d, r')
      else ("", s)
  | EmptyString => ("", "")
  end.

(** Value of a string of decimal digits, most significant first. *)
Fixpoint digitsValFrom (acc : Z) (s : string) : Z :=
  match s with
  | String c r => digitsValFrom (10 * acc + digitVal c) r
  | EmptyString => acc
  end.

Definition digitsVal (s : string) : Z := digitsValFrom 0 s.

(** *** Numbers, as far as the comparison [x <= 0] needs them

    A number read by [parseFloat] is kept as the exact decimal it was
    written as; [le0] then answers what the comparison [x <= 0] answers on
    the double nearest to it. *)
Inductive Num : Type :=
| NaN
| Infinity (negative : bool)
| Dec (negative : bool) (mantissa : Z) (exponent : Z).

(** A positive decimal [m * 10^e] rounds to [+0] exactly when it is at
    most [2^-1075], half of the least positive double. *)
Definition roundsToZero (m e : Z) : bool :=
  if 0 <=? e then false else m * 2 ^ 1075 <=? 10 ^ (- e).

Definition le0 (x : Num) : bool :=
  match x with
  | NaN => false
  | Infinity negative => negative
  | Dec negative m e => negative || (m =? 0) || roundsToZero m e
  end.

Definition isSpace (c : ascii) : bool :=
  let n := nat_of_ascii c in
  ((9 <=? n)%nat && (n <=? 13)%nat) || (n =? 32)%nat.

(** The white space and line terminators outside ASCII, as the bytes of
    their UTF-8 encoding (a string holds the UTF-8 bytes of its text):
    U+00A0 in two bytes; U+1680, U+2000 to U+200A, U+2028, U+2029, U+202F,
    U+205F, U+3000 and U+FEFF in three. *)
Definition isSpace2 (c1 c2 : ascii) : bool :=
  (nat_of_ascii c1 =? 194)%nat && (nat_of_ascii c2 =? 160)%nat.

Definition isSpace3 (c1 c2 c3 : ascii) : bool :=
  let n1 := nat_of_ascii c1 in
  let n2 := nat_of_ascii c2 in
  let n3 := nat_of_ascii c3 in
  ((n1 =? 225) && (n2 =? 154) && (n3 =? 128))%nat
  || ((n1 =? 226) && (n2 =? 128)
      && (((128 <=? n3) && (n3 <=? 138)) || (n3 =? 168) || (n3 =? 169)
          || (n3 =? 175)))%nat
  || ((n1 =? 226) && (n2 =? 129) && (n3 =? 159))%nat
  || ((n1 =? 227) && (n2 =? 128) && (n3 =? 128))%nat
  || ((n1 =? 239) && (n2 =? 187) && (n3 =? 191))%nat.

Fixpoint trimStart (s : string) : string :=
  match s with
  | String c1 r1 =>
      if isSpace c1 then trimStart r1
      else
        match r1 with
        | String c2 r2 =>
            if isSpace2 c1 c2 then trimStart r2
            else
              match r2 with
              | String c3 r3 => if isSpace3 c1 c2 c3 then trimStart r3 else s
              | EmptyString => s
              end
        | EmptyString => s
        end
  | EmptyString => ""
  end.

(** The exponent part [e[+-]digits]; an incomplete one is not consumed. *)
Definition exponentPart (s : string) : Z :=
  match s with
  | String c r =>
      if (Ascii.eqb c "e" || Ascii.eqb c "E")%bool then
        match r with
        | String "-" r' =>
            let '(d, _) := spanDigits r' in
            if String.eqb d "" then 0 else - digitsVal d
        | String "+" r' =>
            let '(d, _) := spanDigits r' in digitsVal d
        | _ => let '(d, _) := spanDigits r in digitsVal d
        end
      else 0
  | EmptyString => 0
  end.

(** The unsigned part of a decimal literal: the longest prefix that is one. *)
Definition parseUnsigned (negative : bool) (s : string) : Num :=
  if prefix "Infinity" s then Infinity negative
  else
    let '(whole, r) := spanDigits s in
    match r with
    | String "." r' =>
        let '(frac, r'') := spanDigits r' in
        if (String.eqb whole "" && String.eqb frac "")%bool then NaN
        else Dec negative (digitsVal (whole ++ frac))
                 (exponentPart r'' - Z.of_nat (String.length frac))
    | _ =>
        if String.eqb whole "" then NaN
        else Dec negative (digitsVal whole) (exponentPart r)
    end.

(** The global [parseFloat]: leading white space, an optional sign, then
    the longest prefix that is a decimal literal; [NaN] when there is none. *)
Definition parseFloat (s : string) : Num :=
  match trimStart s with
  | String "-" r => parseUnsigned true r
  | String "+" r => parseUnsigned false r
  | r => parseUnsigned false r
  end.

End JS.

(* ================================================================== *)
(** ** The ethers library, at its interface

    The hooks use two functions of the library: [parseEther] (decimal string
    to 18-decimal scaled integer, throwing on a malformed string) and
    [formatEther] (the way back).  The hooks are defined over this
    interface; [EthersV6] below is the instance used for evaluation. *)

Class Ethers : Type := {
  parseEther : string -> JS.Res Z;
  formatEther : Z -> JS.Res string
}.

(** Version 6 of the library, for 18 decimals.  [parse] accepts an optional
    minus sign, digits, an optional point and digits, with a digit
    somewhere; it refuses more than 18 decimals unless the excess is zeros,
    and a value outside the signed 512-bit range.  [format] prints the whole
    part, a point and the decimals without trailing zeros, keeping one. *)
Module EthersV6.

Definition decimals : nat := 18.

(** Bounds of the signed 512-bit fixed-point format the library checks. *)
Definition limit : Z := 2 ^ 511.

Definition inRange (v : Z) : bool := (- limit <=? v) && (v <? limit).

Fixpoint zeros (n : nat) : string :=
  match n with
  | O => ""
  | S k => String "0" (zeros k)
  end.

Fixpoint allZeros (s : string) : bool :=
  match s with
  | String c r => Ascii.eqb c "0" && allZeros r
  | EmptyString => true
  end.

(** Pads with zeros on the right up to [n] characters. *)
Definition padRight (n : nat) (s : string) : string :=
  s ++ zeros (n - String.length s).

(** Pads with zeros on the left up to [n] characters. *)
Definition padLeft (n : nat) (s : string) : string :=
  zeros (n - String.length s) ++ s.

(** The shape [-?digits*.?digits*] with at least one digit. *)
Definition split (s : string) : option (bool * string * string) :=
  let '(negative, body) :=
    match s with
    | String "-" r => (true, r)
    | _ => (false, s)
    end in
  let '(whole, r) := JS.spanDigits body in
  let '(frac, r') :=
    match r with
    | String "." r1 => JS.spanDigits r1
    | _ => ("", r)
    end in
  if (String.eqb r' "" &&
      negb (String.eqb whole "" && String.eqb frac ""))%bool
  then Some (negative, whole, frac)
  else None.

Definition parse (s : string) : JS.Res Z :=
  match split s with
  | None => inl (JS.Thrown "invalid FixedNumber string value")
  | Some (negative, whole, frac) =>
      let padded := padRight decimals frac in
      if allZeros (substring decimals (String.length padded - decimals) padded)
      then
        let digits := whole ++ substring 0 decimals padded in
        let v := if negative then - JS.digitsVal digits else JS.digitsVal digits in
        if inRange v then inr v else inl (JS.Thrown "overflow")
      else inl (JS.Thrown "too many decimals for format")
  end.

(** Drops trailing zeros, keeping at least one character. *)
Fixpoint trimEnd (s : string) : string :=
  match s with
  | String c r => if allZeros r then String c "" else String c (trimEnd r)
  | EmptyString => ""
  end.

Definition format (v : Z) : JS.Res string :=
  if inRange v then
    let a := Z.abs v in
    let whole := JS.bigToString (Z.quot a (10 ^ Z.of_nat decimals)) in
    let frac := padLeft decimals (JS.bigToString (Z.rem a (10 ^ Z.of_nat decimals))) in
    inr ((if v <? 0 then "-" else "") ++ whole ++ "." ++ trimEnd frac)
  else inl (JS.Thrown "overflow").

#[global] Instance ethers : Ethers := {|
  parseEther := parse;
  formatEther := format
|}.

End EthersV6.

(* ================================================================== *)
(** ** Contract calls: oracle and trace *)

(** The receipt of a mined transaction (its hash). *)
Definition Receipt : Type := string.

(** What a sent transaction resolves to when it is waited for. *)
Definition TxResponse : Type := JS.Res Receipt.

(** The record [supportedTokens] returns; [fee] is absent when the contract
    has no such field. *)
Record TokenInfo : Type := {
  info_fee : option Z
}.

(** What the contracts' [checkFeeRequirements] returns. *)
Record Requirements : Type := {
  req_hasBalance : bool;
  req_hasAllowance : bool;
  req_balance : Z;
  req_allowance : Z
}.

(** What the contract's [getTransaction] returns; any field may be missing. *)
Record RawTransaction : Type := {
  raw_txId : option string;
  raw_user : option string;
  raw_token : option string;
  raw_amount : option Z;
  raw_fee : option Z;
  raw_sourceChain : option Z;
  raw_targetChain : option Z;
  raw_targetAddress : option string;
  raw_timestamp : option Z;
  raw_status : option Z
}.

(** The BridgeCore contract as the hook sees it: the answer to each call. *)
Record BridgeCore : Type := {
  bc_getAddress : JS.Res string;
  bc_lockTokens : string -> Z -> Z -> string -> JS.Res TxResponse;
  bc_burnAndBridge : string -> Z -> Z -> string -> JS.Res TxResponse;
  bc_getTransaction : string -> JS.Res RawTransaction;
  bc_getUserTransactions : string -> JS.Res (option (list string));
  bc_supportedTokens : string -> JS.Res TokenInfo;
  bc_checkFeeRequirements : string -> JS.Res Requirements
}.

(** An ERC-20 token contract. *)
Record Erc20 : Type := {
  erc_allowance : string -> string -> JS.Res Z;
  erc_approve : string -> Z -> JS.Res TxResponse
}.

(** The router contract, as far as [useDexContract.checkFeeRequirements]
    uses it. *)
Record Router : Type := {
  rt_checkFeeRequirements : string -> JS.Res Requirements
}.

(** What [useWallet] provides, with the chain behind the provider. *)
Record Wallet : Type := {
  isConnected : bool;
  account : option string;
  chainId : option Z;
  (** for a wallet without a chain, whether the context holds [undefined]
      rather than [null]; the wallet context is not part of the sources at
      hand, and the two differ under [===] *)
  chainIdUndefined : bool;
  (** [null], or the outcome of [provider.getSigner()] *)
  provider : option (JS.Res unit);
  (** the token contract at an address *)
  tokenAt : string -> Erc20
}.

(** Calls issued to the wallet and the chain, and what the page shows. *)
Inductive Event : Type :=
| EGetSigner
| EGetAddress
| EAllowance (token owner spender : string)
| EApprove (token spender : string) (amountWei : Z)
| EApproveWait
| ELockTokens (token : string) (amountWei targetChain : Z) (destination : string)
| EBurnAndBridge (token : string) (amountWei targetChain : Z) (destination : string)
| ESubmitWait
| EGetTransaction (txId : string)
| EGetUserTransactions (user : string)
| ESupportedTokens (token : string)
| ECheckFeeRequirements (user : string)
| ERouterCheckFeeRequirements (user : string)
| EHookLockTokens (token amount : string) (targetChain : Z) (destination : option string)
| EHookBurnAndBridge (token amount : string) (targetChain : Z) (destination : option string)
| EAlert (msg : string).

(** A computation: the calls it issued, and its value or the thrown error. *)
Definition M (A : Type) : Type := (list Event * JS.Res A)%type.

Definition ret {A} (a : A) : M A := ([], inr a).

Definition throw {A} (msg : string) : M A := ([], inl (JS.Thrown msg)).

Definition bind {A B} (m : M A) (k : A -> M B) : M B :=
  match m with
  | (t, inl e) => (t, inl e)
  | (t, inr a) => let '(t', r) := k a in ((t ++ t')%list, r)
  end.

(** [try { m } catch (error) { h error }] *)
Definition tryCatch {A} (m : M A) (h : JS.Error -> M A) : M A :=
  match m with
  | (t, inl e) => let '(t', r) := h e in ((t ++ t')%list, r)
  | (t, inr a) => (t, inr a)
  end.

(** A synchronous expression that may throw. *)
Definition lift {A} (r : JS.Res A) : M A := ([], r).

(** An awaited call: it is issued, then answers or fails. *)
Definition call {A} (e : Event) (r : JS.Res A) : M A := ([e], r).

Definition trace {A} (m : M A) : list Event := fst m.
Definition outcome {A} (m : M A) : JS.Res A := snd m.

Declare Scope js_scope.
Delimit Scope js_scope with js.
Notation "x <- m ;; k" := (bind m (fun x => k))
  (at level 100, m at next level, right associativity) : js_scope.
Notation "m ;;; k" := (bind m (fun _ => k))
  (at level 100, right associativity) : js_scope.

(* ================================================================== *)
(** ** useBridgeContract *)

(** [enum BridgeStatus] *)
Inductive BridgeStatus : Type :=
| Pending
| Locked
| Released
| Completed
| Failed.

Definition statusCode (s : BridgeStatus) : Z :=
  match s with
  | Pending => 0
  | Locked => 1
  | Released => 2
  | Completed => 3
  | Failed => 4
  end.

(** [interface BridgeTransaction]; [status] holds the number the contract
    sent, which the cast to [BridgeStatus] does not check. *)
Module BridgeTransaction.
Record t : Type := {
  txId : string;
  user : string;
  token : string;
  amount : string;
  fee : string;
  sourceChain : Z;
  targetChain : Z;
  targetAddress : string;
  timestamp : Z;
  status : Z
}.
End BridgeTransaction.

(** The object the fee checks return. *)
Module FeeStatus.
Record t : Type := {
  hasBalance : bool;
  hasAllowance : bool;
  balance : string;
  allowance : string
}.
End FeeStatus.

Module UseBridgeContract.
Section Hook.

Context {E : Ethers}.
Variable w : Wallet.
(** The hook's [bridgeContract] state: [null] until the contract is loaded. *)
Variable bridgeContract : option BridgeCore.

Local Open Scope js_scope.

(** [await provider!.getSigner()] *)
Definition getSigner : M unit :=
  match provider w with
  | Some r => call EGetSigner r
  | None => throw "Cannot read properties of null"
  end.

(** The [catch] blocks of [lockTokens] and [burnAndBridge] log the error and
    rethrow it, so they do not appear below. *)
Definition lockTokens (tokenAddress amount : string) (targetChain : Z)
    (targetAddress : option string) : M Receipt :=
  match bridgeContract, account w with
  | Some bridge, Some acct =>
      if JS.truthyStr acct then
        let destination := JS.orStr targetAddress acct in
        getSigner ;;;
        let tokenContract := tokenAt w tokenAddress in
        amountWei <- lift (parseEther amount) ;;
        bridgeAddress <- call EGetAddress (bc_getAddress bridge) ;;
        allowance <- call (EAllowance tokenAddress acct bridgeAddress)
                          (erc_allowance tokenContract acct bridgeAddress) ;;
        (if allowance <? amountWei then
           approveTx <- call (EApprove tokenAddress bridgeAddress amountWei)
                             (erc_approve tokenContract bridgeAddress amountWei) ;;
           call EApproveWait approveTx ;;;
           ret tt
         else ret tt) ;;;
        tx <- call (ELockTokens tokenAddress amountWei targetChain destination)
                   (bc_lockTokens bridge tokenAddress amountWei targetChain destination) ;;
        call ESubmitWait tx
      else throw "Bridge contract not available"
  | _, _ => throw "Bridge contract not available"
  end.

Definition burnAndBridge (tokenAddress amount : string) (targetChain : Z)
    (targetAddress : option string) : M Receipt :=
  match bridgeContract, account w with
  | Some bridge, Some acct =>
      if JS.truthyStr acct then
        let destination := JS.orStr targetAddress acct in
        amountWei <- lift (parseEther amount) ;;
        tx <- call (EBurnAndBridge tokenAddress amountWei targetChain destination)
                   (bc_burnAndBridge bridge tokenAddress amountWei targetChain destination) ;;
        call ESubmitWait tx
      else throw "Bridge contract not available"
  | _, _ => throw "Bridge contract not available"
  end.

(** The object [getTransaction] returns when it has nothing to report. *)
Definition emptyTransaction (txId : string) : BridgeTransaction.t :=
  {| BridgeTransaction.txId := txId;
     BridgeTransaction.user := "";
     BridgeTransaction.token := "";
     BridgeTransaction.amount := "0";
     BridgeTransaction.fee := "0";
     BridgeTransaction.sourceChain := 0;
     BridgeTransaction.targetChain := 0;
     BridgeTransaction.targetAddress := "";
     BridgeTransaction.timestamp := 0;
     BridgeTransaction.status := statusCode Pending |}.

(** [x ? ethers.formatEther(x) : '0'] *)
Definition formatOrZero (x : option Z) : M string :=
  match x with
  | Some z => if z =? 0 then ret "0" else lift (formatEther z)
  | None => ret "0"
  end.

(** [x || 0] on a [bigint | undefined]: the value itself, which is left
    a bigint. *)
Definition numberOrZero (x : option Z) : Z :=
  match x with
  | Some z => z
  | None => 0
  end.

(** [x ? Number(x) : 0] *)
Definition toNumberOrZero (x : option Z) : Z :=
  match x with
  | Some z => JS.toNumber z
  | None => 0
  end.

Definition getTransaction (txId : string) : M BridgeTransaction.t :=
  match bridgeContract with
  | None => ret (emptyTransaction txId)
  | Some bridge =>
      tryCatch
        (tx <- call (EGetTransaction txId) (bc_getTransaction bridge txId) ;;
         amount <- formatOrZero (raw_amount tx) ;;
         fee <- formatOrZero (raw_fee tx) ;;
         ret {| BridgeTransaction.txId := JS.orStr (raw_txId tx) txId;
                BridgeTransaction.user := JS.orStr (raw_user tx) "";
                BridgeTransaction.token := JS.orStr (raw_token tx) "";
                BridgeTransaction.amount := amount;
                BridgeTransaction.fee := fee;
                BridgeTransaction.sourceChain := toNumberOrZero (raw_sourceChain tx);
                BridgeTransaction.targetChain := toNumberOrZero (raw_targetChain tx);
                BridgeTransaction.targetAddress := JS.orStr (raw_targetAddress tx) "";
                BridgeTransaction.timestamp := toNumberOrZero (raw_timestamp tx);
                BridgeTransaction.status := numberOrZero (raw_status tx) |})
        (fun _ => ret (emptyTransaction txId))
  end.

Definition getUserTransactions (userAddress : option string) : M (list string) :=
  match bridgeContract with
  | None => ret []
  | Some bridge =>
      match JS.orElse userAddress (account w) with
      | Some address =>
          if JS.truthyStr address then
            tryCatch
              (txs <- call (EGetUserTransactions address)
                           (bc_getUserTransactions bridge address) ;;
               ret (match txs with Some l => l | None => [] end))
              (fun _ => ret [])
          else ret []
      | None => ret []
      end
  end.

(** [BigInt(tokenInfo.fee || 250)] *)
Definition feeRate (tokenInfo : TokenInfo) : Z :=
  if JS.truthyBig (info_fee tokenInfo)
  then numberOrZero (info_fee tokenInfo)
  else 250.

Definition estimateBridgeFee (tokenAddress amount : string) : M string :=
  match bridgeContract with
  | None => throw "Bridge contract not available"
  | Some bridge =>
      tryCatch
        (tryCatch
           (tokenInfo <- call (ESupportedTokens tokenAddress)
                              (bc_supportedTokens bridge tokenAddress) ;;
            amountBN <- lift (parseEther amount) ;;
            let feeBN := JS.bigDiv (amountBN * feeRate tokenInfo) 10000 in
            lift (formatEther feeBN))
           (fun _ =>
              amountBN <- lift (parseEther amount) ;;
              lift (formatEther (JS.bigDiv (amountBN * 250) 10000))))
        (fun _ => ret "0")
  end.

(** The object both fee checks return when the contract call fails. *)
Definition unmet : FeeStatus.t :=
  {| FeeStatus.hasBalance := false;
     FeeStatus.hasAllowance := false;
     FeeStatus.balance := "0";
     FeeStatus.allowance := "0" |}.

Definition feeStatusOf (requirements : Requirements) : FeeStatus.t :=
  {| FeeStatus.hasBalance := req_hasBalance requirements;
     FeeStatus.hasAllowance := req_hasAllowance requirements;
     FeeStatus.balance := JS.bigToString (req_balance requirements);
     FeeStatus.allowance := JS.bigToString (req_allowance requirements) |}.

Definition checkFeeRequirements (userAddress : option string) : M FeeStatus.t :=
  match bridgeContract with
  | None => throw "Bridge contract not available"
  | Some bridge =>
      match JS.orElse userAddress (account w) with
      | Some address =>
          if JS.truthyStr address then
            tryCatch
              (requirements <- call (ECheckFeeRequirements address)
                                    (bc_checkFeeRequirements bridge address) ;;
               ret (feeStatusOf requirements))
              (fun _ => ret unmet)
          else throw "No address provided"
      | None => throw "No address provided"
      end
  end.

End Hook.
End UseBridgeContract.

(* ================================================================== *)
(** ** useDexContract: the fee check against the router *)

Module UseDexContract.
Section Hook.

Variable w : Wallet.
(** [contracts.router] *)
Variable router : option Router.

Local Open Scope js_scope.

Definition checkFeeRequirements (userAddress : option string) : M FeeStatus.t :=
  tryCatch
    (match router with
     | None => throw "Router not available"
     | Some r =>
         match JS.orElse userAddress (account w) with
         | Some address =>
             if JS.truthyStr address then
               requirements <- call (ERouterCheckFeeRequirements address)
                                    (rt_checkFeeRequirements r address) ;;
               ret (UseBridgeContract.feeStatusOf requirements)
             else throw "No address provided"
         | None => throw "No address provided"
         end
     end)
    (fun _ => ret UseBridgeContract.unmet).

End Hook.
End UseDexContract.

(* ================================================================== *)
(** ** The Bridge component *)

(** A token of the token list; [chainId] is the chain the entry belongs to. *)
Module Token.
Record t : Type := {
  address : string;
  chainId : Z;
  symbol : string;
  name : string
}.
End Token.

(** The two source-side operations a transfer can start with. *)
Inductive TransferKind : Type :=
| Lock
| BurnAndMint.

Module Bridge.

(** The component's [useState] cells; [fromChain] and [toChain] hold the
    chain ids of the two selected entries. *)
Record State : Type := {
  fromChain : Z;
  toChain : Z;
  amount : string;
  destinationAddress : string;
  selectedToken : string;
  bridgeFee : string;
  isBridging : bool;
  userTransactions : list string;
  feeWarning : string
}.

Definition setAmount (v : string) (st : State) : State :=
  {| fromChain := fromChain st; toChain := toChain st; amount := v;
     destinationAddress := destinationAddress st;
     selectedToken := selectedToken st; bridgeFee := bridgeFee st;
     isBridging := isBridging st; userTransactions := userTransactions st;
     feeWarning := feeWarning st |}.

Definition setDestinationAddress (v : string) (st : State) : State :=
  {| fromChain := fromChain st; toChain := toChain st; amount := amount st;
     destinationAddress := v;
     selectedToken := selectedToken st; bridgeFee := bridgeFee st;
     isBridging := isBridging st; userTransactions := userTransactions st;
     feeWarning := feeWarning st |}.

Definition setBridgeFee (v : string) (st : State) : State :=
  {| fromChain := fromChain st; toChain := toChain st; amount := amount st;
     destinationAddress := destinationAddress st;
     selectedToken := selectedToken st; bridgeFee := v;
     isBridging := isBridging st; userTransactions := userTransactions st;
     feeWarning := feeWarning st |}.

Definition setIsBridging (v : bool) (st : State) : State :=
  {| fromChain := fromChain st; toChain := toChain st; amount := amount st;
     destinationAddress := destinationAddress st;
     selectedToken := selectedToken st; bridgeFee := bridgeFee st;
     isBridging := v; userTransactions := userTransactions st;
     feeWarning := feeWarning st |}.

Definition setUserTransactions (v : list string) (st : State) : State :=
  {| fromChain := fromChain st; toChain := toChain st; amount := amount st;
     destinationAddress := destinationAddress st;
     selectedToken := selectedToken st; bridgeFee := bridgeFee st;
     isBridging := isBridging st; userTransactions := v;
     feeWarning := feeWarning st |}.

Definition setFeeWarning (v : string) (st : State) : State :=
  {| fromChain := fromChain st; toChain := toChain st; amount := amount st;
     destinationAddress := destinationAddress st;
     selectedToken := selectedToken st; bridgeFee := bridgeFee st;
     isBridging := isBridging st; userTransactions := userTransactions st;
     feeWarning := v |}.

Definition needFeeMessage : string :=
  "You need $3 USDT balance and approval for bridge fees".
Definition cannotVerifyMessage : string :=
  "Unable to verify USDT fee requirements".
Definition connectMessage : string := "Please connect your wallet first".
Definition amountMessage : string := "Please enter a valid amount".
Definition tokenMessage : string := "Please select a token".
Definition initiatedMessage : string :=
  "Bridge transaction initiated! Please wait for confirmation on the destination chain.".
Definition failedMessage : string :=
  "Bridge transaction failed. Please try again.".

Section Component.

Context {E : Ethers}.
(** The token table of [constants/tokens], which is not part of the
    sources at hand: the tokens listed for a chain. *)
Variable getTokensByChain : Z -> list Token.t.
Variable w : Wallet.
Variable bridgeContract : option BridgeCore.

(** [chainId ? getTokensByChain(chainId) : []] *)
Definition availableTokens : list Token.t :=
  match chainId w with
  | Some c => if c =? 0 then [] else getTokensByChain c
  | None => []
  end.

Definition checkUSDTFeeRequirements (st : State) : State * list Event :=
  if negb (JS.truthy (account w)) then (st, [])
  else
    match UseBridgeContract.checkFeeRequirements w bridgeContract (account w) with
    | (t, inr feeStatus) =>
        if (negb (FeeStatus.hasBalance feeStatus)
            || negb (FeeStatus.hasAllowance feeStatus))%bool
        then (setFeeWarning needFeeMessage st, t)
        else (setFeeWarning "" st, t)
    | (t, inl _) => (setFeeWarning cannotVerifyMessage st, t)
    end.

Definition estimateFee (st : State) : State * list Event :=
  if (negb (JS.truthyStr (selectedToken st))
      || negb (JS.truthyStr (amount st)))%bool then (st, [])
  else
    match UseBridgeContract.estimateBridgeFee bridgeContract
            (selectedToken st) (amount st) with
    | (t, inr fee) => (setBridgeFee fee st, t)
    | (t, inl _) => (setBridgeFee "0" st, t)
    end.

Definition loadUserTransactions (st : State) : State * list Event :=
  if negb (JS.truthy (account w)) then (st, [])
  else
    match UseBridgeContract.getUserTransactions w bridgeContract (account w) with
    | (t, inr txs) => (setUserTransactions txs st, t)
    | (t, inl _) => (st, t)
    end.

(** [availableTokens.find(t => t.address === selectedToken)] *)
Definition findToken (selected : string) : option Token.t :=
  find (fun t => String.eqb (Token.address t) selected) availableTokens.

(** [token?.chainId === chainId].  With no token found the left side is
    [undefined], which is equal to the wallet's chain only when that is
    [undefined] too; a number is equal neither to [null] nor to
    [undefined]. *)
Definition isNativeToken (token : option Token.t) : bool :=
  match token, chainId w with
  | Some t, Some c => Token.chainId t =? c
  | None, None => chainIdUndefined w
  | _, _ => false
  end.

(** The branch [handleBridge] takes on [isNativeToken]. *)
Definition transferKind (token : option Token.t) : TransferKind :=
  if isNativeToken token then Lock else BurnAndMint.

(** The submit function of the hook for a kind; the event in front marks
    which of the two was invoked, and with which arguments. *)
Definition submit (kind : TransferKind) (tokenAddress amount : string)
    (targetChain : Z) (destination : option string) : M Receipt :=
  match kind with
  | Lock =>
      bind (call (EHookLockTokens tokenAddress amount targetChain destination) (inr tt))
        (fun _ => UseBridgeContract.lockTokens w bridgeContract
                    tokenAddress amount targetChain destination)
  | BurnAndMint =>
      bind (call (EHookBurnAndBridge tokenAddress amount targetChain destination) (inr tt))
        (fun _ => UseBridgeContract.burnAndBridge w bridgeContract
                    tokenAddress amount targetChain destination)
  end.

(** [handleBridge].  The refresh of the history it starts on success is
    not awaited in the source; its effect is placed where it was started. *)
Definition handleBridge (st : State) : State * list Event :=
  if negb (isConnected w) then (st, [EAlert connectMessage])
  else if (negb (JS.truthyStr (amount st))
           || JS.le0 (JS.parseFloat (amount st)))%bool
  then (st, [EAlert amountMessage])
  else if negb (JS.truthyStr (selectedToken st))
  then (st, [EAlert tokenMessage])
  else
    let st1 := setIsBridging true st in
    let destination := JS.orElse (Some (destinationAddress st)) (account w) in
    let token := findToken (selectedToken st) in
    match submit (transferKind token) (selectedToken st) (amount st)
            (toChain st) destination with
    | (t, inr _) =>
        let st2 := setDestinationAddress "" (setAmount "" st1) in
        let '(st3, t3) := loadUserTransactions st2 in
        (setIsBridging false st3, (t ++ EAlert initiatedMessage :: t3)%list)
    | (t, inl _) =>
        (setIsBridging false st1, (t ++ [EAlert failedMessage])%list)
    end.

(** The [disabled] attribute of the Bridge button. *)
Definition bridgeDisabled (st : State) : bool :=
  (negb (JS.truthyStr (amount st))
   || negb (JS.truthyStr (selectedToken st))
   || negb (isConnected w)
   || isBridging st
   || JS.truthyStr (feeWarning st))%bool.

(** A click on the Bridge button: a disabled button fires no handler. *)
Definition clickBridge (st : State) : State * list Event :=
  if bridgeDisabled st then (st, []) else handleBridge st.

Definition estimatedTime (st : State) : string :=
  if ((fromChain st =? 43114) || (toChain st =? 43114))%bool then "2-5 minutes"
  else if ((fromChain st =? 250) || (toChain st =? 250))%bool then "1-3 minutes"
  else "5-10 minutes".

(** The label and value rows of the fee panel that are always shown. *)
Definition feePanel (st : State) : list (string * string) :=
  [ ("Bridge Fee", "$3 USDT");
    ("Token Fee", bridgeFee st ++ " tokens");
    ("Estimated Time", estimatedTime st) ].

End Component.
End Bridge.

(* ================================================================== *)
(** ** Fixtures: a wallet, a chain that answers and a chain that does not *)

Module Scenario.

Definition me : string := "0xA11CE".
Definition bridgeAddress : string := "0xB21D6E".
Definition nativeToken : string := "0x7A11".
Definition wrappedToken : string := "0x3E77".

Definition rpcError : JS.Error := JS.Thrown "call exception".

(** A token contract on which the bridge holds allowance [a]. *)
Definition erc20 (a : Z) : Erc20 :=
  {| erc_allowance := fun _ _ => inr a;
     erc_approve := fun _ _ => inr (inr "0xa9907e") |}.

(** A connected wallet on chain 1. *)
Definition wallet (a : Z) : Wallet :=
  {| isConnected := true;
     account := Some me;
     chainId := Some 1;
     chainIdUndefined := false;
     provider := Some (inr tt);
     tokenAt := fun _ => erc20 a |}.

(** The token list: one token native to chain 1, one wrapped there. *)
Definition getTokensByChain (c : Z) : list Token.t :=
  [ {| Token.address := nativeToken; Token.chainId := 1;
       Token.symbol := "ESR"; Token.name := "ESR Token" |};
    {| Token.address := wrappedToken; Token.chainId := 56;
       Token.symbol := "wBNB"; Token.name := "Wrapped BNB" |} ].

(** A bridge contract that answers every call; [info] is what it reports
    for a token, [reqs] its fee check and [txs] a user's handles. *)
Definition bridge (info : JS.Res TokenInfo) (reqs : JS.Res Requirements)
    (txs : JS.Res (option (list string))) : BridgeCore :=
  {| bc_getAddress := inr bridgeAddress;
     bc_lockTokens := fun _ _ _ _ => inr (inr "0x10c4ed");
     bc_burnAndBridge := fun _ _ _ _ => inr (inr "0xb042ed");
     bc_getTransaction := fun _ => inl rpcError;
     bc_getUserTransactions := fun _ => txs;
     bc_supportedTokens := fun _ => info;
     bc_checkFeeRequirements := fun _ => reqs |}.

Definition rate (r : Z) : JS.Res TokenInfo := inr {| info_fee := Some r |}.

Definition requirements (b a : bool) : JS.Res Requirements :=
  inr {| req_hasBalance := b; req_hasAllowance := a;
         req_balance := 0; req_allowance := 0 |}.

(** The bridge contract with a 250 bps token, met fee requirements and two
    handles on record. *)
Definition healthy : BridgeCore :=
  bridge (rate 250) (requirements true true) (inr (Some ["0xabc"; "0xdef"])).

(** The same contract with the token's rate declared as 0. *)
Definition zeroRated : BridgeCore :=
  bridge (rate 0) (requirements true true) (inr (Some ["0xabc"; "0xdef"])).

(** The bridge contract when every read fails. *)
Definition unreachable : BridgeCore :=
  bridge (inl rpcError) (inl rpcError) (inl rpcError).

Definition router (reqs : JS.Res Requirements) : Router :=
  {| rt_checkFeeRequirements := fun _ => reqs |}.

(** The page with a token and an amount entered, bound for chain [dest]. *)
Definition page (tokenAddress amount : string) (dest : Z) : Bridge.State :=
  {| Bridge.fromChain := 1;
     Bridge.toChain := dest;
     Bridge.amount := amount;
     Bridge.destinationAddress := "";
     Bridge.selectedToken := tokenAddress;
     Bridge.bridgeFee := "0";
     Bridge.isBridging := false;
     Bridge.userTransactions := [];
     Bridge.feeWarning := "" |}.

End Scenario.

(* ================================================================== *)
(** ** What is read off a trace *)

Module Observe.

(** The hook function an event is the invocation of. *)
Definition invoked (e : Event) : option TransferKind :=
  match e with
  | EHookLockTokens _ _ _ _ => Some Lock
  | EHookBurnAndBridge _ _ _ _ => Some BurnAndMint
  | _ => None
  end.

(** The submit functions invoked along a trace, in order. *)
Fixpoint invocations (t : list Event) : list TransferKind :=
  match t with
  | [] => []
  | e :: r =>
      match invoked e with
      | Some k => k :: invocations r
      | None => invocations r
      end
  end.

(** A call that moves value on the bridge contract. *)
Definition isTransfer (e : Event) : bool :=
  match e with
  | ELockTokens _ _ _ _ | EBurnAndBridge _ _ _ _ => true
  | _ => false
  end.

(** A call that reaches the wallet or a contract. *)
Definition isCall (e : Event) : bool :=
  match e with
  | EHookLockTokens _ _ _ _ | EHookBurnAndBridge _ _ _ _ | EAlert _ => false
  | _ => true
  end.

(** Every value-moving call of the trace comes after an allowance read;
    [seen] tells whether one was met already. *)
Fixpoint allowanceReadFirst (seen : bool) (t : list Event) : bool :=
  match t with
  | [] => true
  | e :: r =>
      match e with
      | EAllowance _ _ _ => allowanceReadFirst true r
      | _ => (negb (isTransfer e) || seen) && allowanceReadFirst seen r
      end
  end.

End Observe.

(** The messages of the alerts along a trace, in order. *)
Module Shown.
Fixpoint alerts (t : list Event) : list string :=
  match t with
  | [] => []
  | EAlert msg :: r => msg :: alerts r
  | _ :: r => alerts r
  end.
End Shown.

(* ================================================================== *)
(** ** Calls of the other hooks

    The DEX, staking and farming hooks talk to more contracts than the
    bridge hook does.  Their calls are recorded with the contract, the
    method and the arguments. *)

Inductive Target : Type :=
| OnWallet
| OnFactory
| OnRouter
| OnPair (address : string)
| OnToken (address : string)
| OnEsr
| OnStaking
| OnFarming.

Inductive Arg : Type :=
| AStr (s : string)
| ANum (z : Z)
| APath (l : list string).

Inductive Op : Type :=
| OpCall (target : Target) (method : string) (args : list Arg)
| OpWait (method : string).

Module Tr.

(** A computation over the calls [Op]. *)
Definition M (A : Type) : Type := (list Op * JS.Res A)%type.

Definition ret {A} (a : A) : M A := ([], inr a).

Definition throw {A} (msg : string) : M A := ([], inl (JS.Thrown msg)).

Definition bind {A B} (m : M A) (k : A -> M B) : M B :=
  match m with
  | (t, inl e) => (t, inl e)
  | (t, inr a) => let '(t', r) := k a in ((t ++ t')%list, r)
  end.

(** [try { m } catch (error) { h error }] *)
Definition tryCatch {A} (m : M A) (h : JS.Error -> M A) : M A :=
  match m with
  | (t, inl e) => let '(t', r) := h e in ((t ++ t')%list, r)
  | (t, inr a) => (t, inr a)
  end.

Definition lift {A} (r : JS.Res A) : M A := ([], r).

Definition call {A} (target : Target) (method : string) (args : list Arg)
    (r : JS.Res A) : M A :=
  ([OpCall target method args], r).

(** [await tx.wait()] *)
Definition wait (method : string) (tx : TxResponse) : M Receipt :=
  ([OpWait method], tx).

Definition trace {A} (m : M A) : list Op := fst m.
Definition outcome {A} (m : M A) : JS.Res A := snd m.

End Tr.

Declare Scope tr_scope.
Delimit Scope tr_scope with tr.
Notation "x <- m ;; k" := (Tr.bind m (fun x => k))
  (at level 100, m at next level, right associativity) : tr_scope.
Notation "m ;;; k" := (Tr.bind m (fun _ => k))
  (at level 100, right associativity) : tr_scope.

(** The addresses [getContractAddresses] gives for a chain, as far as the
    hooks below use them; an address that is not configured is empty. *)
Record Addresses : Type := {
  addr_staking : string;
  addr_farming : string
}.

(* ================================================================== *)
(** ** useDexContract: pairs, reserves, quotes, balances and swaps *)

Record Factory : Type := {
  f_allPairsLength : JS.Res Z;
  f_allPairs : Z -> JS.Res string
}.

Record PairContract : Type := {
  p_getReserves : JS.Res (Z * Z);
  p_token0 : JS.Res string;
  p_token1 : JS.Res string;
  p_totalSupply : JS.Res Z
}.

Record SwapRouter : Type := {
  sr_swapExactTokensForTokens :
    Z -> Z -> list string -> string -> Z -> JS.Res TxResponse;
  sr_getAmountsOut : Z -> list string -> JS.Res (list Z)
}.

(** What [getPairReserves] returns. *)
Module PairReserves.
Record t : Type := {
  reserve0 : string;
  reserve1 : string;
  token0 : string;
  token1 : string;
  totalSupply : string
}.
End PairReserves.

Module DexHook.

(** [ethers.ZeroAddress] *)
Definition ZeroAddress : string := "0x0000000000000000000000000000000000000000".

Section Hook.

Context {E : Ethers}.
Variable w : Wallet.
(** [contracts.factory] and [contracts.router] *)
Variable factory : option Factory.
Variable router : option SwapRouter.
(** The pair contract at an address, and [balanceOf] of the token at an
    address. *)
Variable pairAt : string -> PairContract.
Variable balanceOf : string -> string -> JS.Res Z.

Local Open Scope tr_scope.

(** [getTokenContract]: [null] without a provider; the token is named by
    its address. *)
Definition getTokenContract (tokenAddress : string) : Tr.M (option string) :=
  match provider w with
  | None => Tr.ret None
  | Some r => Tr.call OnWallet "getSigner" [] r ;;; Tr.ret (Some tokenAddress)
  end.

(** The body of the loop of [getAllPairs], for the indices left. *)
Fixpoint collectPairs (f : Factory) (indices : list nat) (pairs : list string)
    : Tr.M (list string) :=
  match indices with
  | [] => Tr.ret pairs
  | i :: rest =>
      pairs' <- Tr.tryCatch
                  (pairAddress <- Tr.call OnFactory "allPairs" [ANum (Z.of_nat i)]
                                    (f_allPairs f (Z.of_nat i)) ;;
                   Tr.ret (pairs ++ [pairAddress])%list)
                  (fun _ => Tr.ret pairs) ;;
      collectPairs f rest pairs'
  end.

Definition getAllPairs : Tr.M (list string) :=
  match factory with
  | None => Tr.throw "Factory not available"
  | Some f =>
      Tr.tryCatch
        (pairsLength <- Tr.tryCatch
                          (Tr.call OnFactory "allPairsLength" [] (f_allPairsLength f))
                          (fun _ => Tr.ret 0) ;;
         if 0 <? pairsLength
         then collectPairs f (seq 0 (Z.to_nat pairsLength)) []
         else Tr.ret [])
        (fun _ => Tr.ret [])
  end.

(** The object [getPairReserves] returns from its [catch] blocks. *)
Definition noReserves : PairReserves.t :=
  {| PairReserves.reserve0 := "0";
     PairReserves.reserve1 := "0";
     PairReserves.token0 := ZeroAddress;
     PairReserves.token1 := ZeroAddress;
     PairReserves.totalSupply := "0" |}.

Definition getPairReserves (pairAddress : string) : Tr.M PairReserves.t :=
  match provider w with
  | None => Tr.throw "Provider not available"
  | Some signer =>
      Tr.tryCatch
        (Tr.tryCatch
           (Tr.call OnWallet "getSigner" [] signer ;;;
            let pairContract := pairAt pairAddress in
            reserves <- Tr.tryCatch
                          (Tr.call (OnPair pairAddress) "getReserves" []
                             (p_getReserves pairContract))
                          (fun _ => Tr.ret (0, 0)) ;;
            token0 <- Tr.call (OnPair pairAddress) "token0" [] (p_token0 pairContract) ;;
            token1 <- Tr.call (OnPair pairAddress) "token1" [] (p_token1 pairContract) ;;
            totalSupply <- Tr.call (OnPair pairAddress) "totalSupply" []
                             (p_totalSupply pairContract) ;;
            reserve0 <- Tr.lift (formatEther (fst reserves)) ;;
            reserve1 <- Tr.lift (formatEther (snd reserves)) ;;
            supply <- Tr.lift (formatEther totalSupply) ;;
            Tr.ret {| PairReserves.reserve0 := reserve0;
                      PairReserves.reserve1 := reserve1;
                      PairReserves.token0 := token0;
                      PairReserves.token1 := token1;
                      PairReserves.totalSupply := supply |})
           (fun _ => Tr.ret noReserves))
        (fun _ => Tr.ret noReserves)
  end.

Definition swapExactTokensForTokens (amountIn amountOutMin : string)
    (path : list string) (deadline : Z) : Tr.M Receipt :=
  match router, account w with
  | Some r, Some acct =>
      if JS.truthyStr acct then
        amountInWei <- Tr.lift (parseEther amountIn) ;;
        amountOutMinWei <- Tr.lift (parseEther amountOutMin) ;;
        tx <- Tr.call OnRouter "swapExactTokensForTokens"
                [ANum amountInWei; ANum amountOutMinWei; APath path; AStr acct;
                 ANum deadline]
                (sr_swapExactTokensForTokens r amountInWei amountOutMinWei path
                   acct deadline) ;;
        Tr.wait "swapExactTokensForTokens" tx
      else Tr.throw "Router not available"
  | _, _ => Tr.throw "Router not available"
  end.

(** [amounts.map((amount) => ethers.formatEther(amount))] *)
Fixpoint formatAll (amounts : list Z) : JS.Res (list string) :=
  match amounts with
  | [] => inr []
  | a :: rest =>
      match formatEther a with
      | inl e => inl e
      | inr s =>
          match formatAll rest with
          | inl e => inl e
          | inr l => inr (s :: l)
          end
      end
  end.

Definition getAmountsOut (amountIn : string) (path : list string)
    : Tr.M (list string) :=
  match router with
  | None => Tr.throw "Router not available"
  | Some r =>
      Tr.tryCatch
        (amountInWei <- Tr.lift (parseEther amountIn) ;;
         amounts <- Tr.call OnRouter "getAmountsOut" [ANum amountInWei; APath path]
                      (sr_getAmountsOut r amountInWei path) ;;
         Tr.lift (formatAll amounts))
        (fun _ => Tr.ret [amountIn; "0"])
  end.

Definition getTokenBalance (tokenAddress : string) (userAddress : option string)
    : Tr.M string :=
  Tr.tryCatch
    (token <- getTokenContract tokenAddress ;;
     match token with
     | None => Tr.throw "Token contract not available"
     | Some tokenContract =>
         match JS.orElse userAddress (account w) with
         | Some address =>
             if JS.truthyStr address then
               balance <- Tr.call (OnToken tokenContract) "balanceOf" [AStr address]
                            (balanceOf tokenContract address) ;;
               Tr.lift (formatEther balance)
             else Tr.throw "No address provided"
         | None => Tr.throw "No address provided"
         end
     end)
    (fun _ => Tr.ret "0").

End Hook.
End DexHook.

(* ================================================================== *)
(** ** useStakingContract *)

Record StakingContract : Type := {
  sk_stake : Z -> JS.Res TxResponse;
  sk_unstake : Z -> JS.Res TxResponse;
  sk_checkFeeRequirements : string -> JS.Res Requirements
}.

Module UseStakingContract.
Section Hook.

Context {E : Ethers}.
Variable w : Wallet.
Variable stakingContract : option StakingContract.
Variable esrContract : option Erc20.
(** [getContractAddresses] of [constants/contracts], which is not part of
    the sources at hand; it is given what the hook gives it. *)
Variable getContractAddresses : option Z -> option Addresses.

Local Open Scope tr_scope.

Definition stakeESR (amount : string) : Tr.M Receipt :=
  match stakingContract, esrContract, account w with
  | Some staking, Some esr, Some acct =>
      if JS.truthyStr acct then
        match getContractAddresses (chainId w) with
        | None => Tr.throw "Contract addresses not found"
        | Some addresses =>
            amountWei <- Tr.lift (parseEther amount) ;;
            allowance <- Tr.call OnEsr "allowance"
                           [AStr acct; AStr (addr_staking addresses)]
                           (erc_allowance esr acct (addr_staking addresses)) ;;
            (if allowance <? amountWei then
               approveTx <- Tr.call OnEsr "approve"
                              [AStr (addr_staking addresses); ANum amountWei]
                              (erc_approve esr (addr_staking addresses) amountWei) ;;
               Tr.wait "approve" approveTx ;;;
               Tr.ret tt
             else Tr.ret tt) ;;;
            tx <- Tr.call OnStaking "stake" [ANum amountWei]
                    (sk_stake staking amountWei) ;;
            Tr.wait "stake" tx
        end
      else Tr.throw "Contracts not available"
  | _, _, _ => Tr.throw "Contracts not available"
  end.

Definition unstakeESR (amount : string) : Tr.M Receipt :=
  match stakingContract with
  | None => Tr.throw "Staking contract not available"
  | Some staking =>
      amountWei <- Tr.lift (parseEther amount) ;;
      tx <- Tr.call OnStaking "unstake" [ANum amountWei]
              (sk_unstake staking amountWei) ;;
      Tr.wait "unstake" tx
  end.

Definition checkFeeRequirements (userAddress : string) : Tr.M FeeStatus.t :=
  match stakingContract with
  | None => Tr.ret UseBridgeContract.unmet
  | Some staking =>
      requirements <- Tr.call OnStaking "checkFeeRequirements" [AStr userAddress]
                        (sk_checkFeeRequirements staking userAddress) ;;
      Tr.ret (UseBridgeContract.feeStatusOf requirements)
  end.

End Hook.
End UseStakingContract.

(* ================================================================== *)
(** ** useFarmingContract: deposit *)

Record PoolInfo : Type := {
  lpToken : string
}.

Record FarmingContract : Type := {
  fm_getPoolInfo : Z -> JS.Res PoolInfo;
  fm_deposit : Z -> Z -> JS.Res TxResponse
}.

Module UseFarmingContract.
Section Hook.

Context {E : Ethers}.
Variable w : Wallet.
Variable farmingContract : option FarmingContract.
Variable getContractAddresses : option Z -> option Addresses.

Local Open Scope tr_scope.

(** [getLPContract]: [null] without a provider. *)
Definition getLPContract (lpTokenAddress : string) : Tr.M (option Erc20) :=
  match provider w with
  | None => Tr.ret None
  | Some r =>
      Tr.call OnWallet "getSigner" [] r ;;; Tr.ret (Some (tokenAt w lpTokenAddress))
  end.

Definition deposit (pid : Z) (amount : string) : Tr.M Receipt :=
  match farmingContract, account w with
  | Some farming, Some acct =>
      if JS.truthyStr acct then
        match chainId w with
        | None => Tr.throw "Chain not connected"
        | Some c =>
            if c =? 0 then Tr.throw "Chain not connected"
            else
              match getContractAddresses (Some c) with
              | None => Tr.throw "Farming contract address not found"
              | Some addresses =>
                  if JS.truthyStr (addr_farming addresses) then
                    poolInfo <- Tr.call OnFarming "getPoolInfo" [ANum pid]
                                  (fm_getPoolInfo farming pid) ;;
                    lpContract <- getLPContract (lpToken poolInfo) ;;
                    match lpContract with
                    | None => Tr.throw "LP contract not available"
                    | Some lp =>
                        amountWei <- Tr.lift (parseEther amount) ;;
                        allowance <- Tr.call (OnToken (lpToken poolInfo)) "allowance"
                                       [AStr acct; AStr (addr_farming addresses)]
                                       (erc_allowance lp acct (addr_farming addresses)) ;;
                        (if allowance <? amountWei then
                           approveTx <- Tr.call (OnToken (lpToken poolInfo)) "approve"
                                          [AStr (addr_farming addresses); ANum amountWei]
                                          (erc_approve lp (addr_farming addresses) amountWei) ;;
                           Tr.wait "approve" approveTx ;;;
                           Tr.ret tt
                         else Tr.ret tt) ;;;
                        tx <- Tr.call OnFarming "deposit" [ANum pid; ANum amountWei]
                                (fm_deposit farming pid amountWei) ;;
                        Tr.wait "deposit" tx
                    end
                  else Tr.throw "Farming contract address not found"
              end
        end
      else Tr.throw "Contract not available"
  | _, _ => Tr.throw "Contract not available"
  end.

End Hook.
End UseFarmingContract.

(* ================================================================== *)
(** ** Chains: the lists of the Bridge page and of the chain selector *)

(** An entry of [CHAIN_CONFIG], as far as the components read it. *)
Record ChainConfig : Type := {
  chainName : string;
  isTestnet : bool;
  nativeSymbol : string
}.

(** [getChainIcon], the same table in both components. *)
Definition getChainIcon (chainId : Z) : string :=
  if chainId =? 1 then "⟠"
  else if chainId =? 5 then "⟠"
  else if chainId =? 56 then "🟡"
  else if chainId =? 97 then "🟡"
  else if chainId =? 137 then "🟣"
  else if chainId =? 80001 then "🟣"
  else if chainId =? 42161 then "🔵"
  else if chainId =? 43114 then "🔺"
  else if chainId =? 43113 then "🔺"
  else if chainId =? 250 then "👻"
  else if chainId =? 4002 then "👻"
  else if chainId =? 2612 then "🟢"
  else if chainId =? 25062019 then "🟢"
  else "🔗".

(** A chain as the Bridge page lists it. *)
Module ChainOption.
Record t : Type := {
  id : Z;
  name : string;
  symbol : string;
  icon : string
}.
End ChainOption.

Module BridgeChains.
Section Chains.

(** [Object.entries(CHAIN_CONFIG)]: the table of [constants/chainConfig],
    which is not part of the sources at hand, with its keys read back as
    numbers. *)
Variable CHAIN_CONFIG : list (Z * ChainConfig).
Variable testnetMode : bool.

Definition availableChains : list ChainOption.t :=
  map (fun entry =>
         {| ChainOption.id := fst entry;
            ChainOption.name := chainName (snd entry);
            ChainOption.symbol := nativeSymbol (snd entry);
            ChainOption.icon := getChainIcon (fst entry) |})
      (filter (fun entry => Bool.eqb (isTestnet (snd entry)) testnetMode)
         CHAIN_CONFIG).

Definition defaultFrom : ChainOption.t :=
  {| ChainOption.id := 1; ChainOption.name := "Ethereum";
     ChainOption.symbol := "ETH"; ChainOption.icon := "⟠" |}.

Definition defaultTo : ChainOption.t :=
  {| ChainOption.id := 56; ChainOption.name := "BSC";
     ChainOption.symbol := "BNB"; ChainOption.icon := "🟡" |}.

(** [availableChains[0] || {...}] and [availableChains[1] || {...}] *)
Definition initialFromChain : ChainOption.t := nth 0 availableChains defaultFrom.
Definition initialToChain : ChainOption.t := nth 1 availableChains defaultTo.

(** The options of the "To" list: [availableChains.filter(c => c.id !== fromChain.id)] *)
Definition toOptions (fromChain : ChainOption.t) : list ChainOption.t :=
  filter (fun c => negb (ChainOption.id c =? ChainOption.id fromChain))
    availableChains.

End Chains.
End BridgeChains.

(* ================================================================== *)
(** ** The chain selector *)

Module ChainSelector.

Record State : Type := {
  isOpen : bool;
  showTestnets : bool;
  isProcessing : bool;
  errorMessage : option string
}.

Definition setIsOpen (v : bool) (st : State) : State :=
  {| isOpen := v; showTestnets := showTestnets st;
     isProcessing := isProcessing st; errorMessage := errorMessage st |}.

Definition setIsProcessing (v : bool) (st : State) : State :=
  {| isOpen := isOpen st; showTestnets := showTestnets st;
     isProcessing := v; errorMessage := errorMessage st |}.

Definition setErrorMessage (v : option string) (st : State) : State :=
  {| isOpen := isOpen st; showTestnets := showTestnets st;
     isProcessing := isProcessing st; errorMessage := v |}.

Definition retryMessage : string :=
  "Failed to switch network. Please try again or add the network manually in your wallet.".

Section Component.

Variable CHAIN_CONFIG : list (Z * ChainConfig).
(** [switchChain] of the wallet context: what it resolves to for a chain. *)
Variable switchChain : Z -> JS.Res bool.

(** [CHAIN_CONFIG[targetChainId]?.chainName || 'network'] *)
Definition nameOrNetwork (targetChainId : Z) : string :=
  match find (fun entry => fst entry =? targetChainId) CHAIN_CONFIG with
  | Some entry => JS.orStr (Some (chainName (snd entry))) "network"
  | None => "network"
  end.

Definition failedMessage (targetChainId : Z) : string :=
  "Failed to switch to " ++ nameOrNetwork targetChainId
  ++ ". Please try adding the network manually in your wallet.".

Definition handleChainSelect (targetChainId : Z) (st : State) : State :=
  let st1 := setErrorMessage None (setIsProcessing true st) in
  match switchChain targetChainId with
  | inr success =>
      if negb success
      then setIsProcessing false
             (setErrorMessage (Some (failedMessage targetChainId)) st1)
      else setIsProcessing false (setIsOpen false st1)
  | inl _ => setIsProcessing false (setErrorMessage (Some retryMessage) st1)
  end.

(** The effect on [isOpen]: a closed list shows no error. *)
Definition clearOnClose (st : State) : State :=
  if negb (isOpen st) then setErrorMessage None st else st.

(** The rows of the list: [displayedChains], with id, name, icon and the
    test network mark. *)
Definition displayedChains (st : State) : list (Z * string * string * bool) :=
  map (fun entry =>
         (fst entry, chainName (snd entry), getChainIcon (fst entry),
          isTestnet (snd entry)))
      (filter (fun entry => Bool.eqb (isTestnet (snd entry)) (showTestnets st))
         CHAIN_CONFIG).

End Component.
End ChainSelector.

(* ================================================================== *)
(** ** More fixtures *)

Module Scenario2.

Definition stakingAddress : string := "0x57A4E".
Definition farmingAddress : string := "0xFA23".
Definition lpAddress : string := "0x1900".

Definition addresses (c : option Z) : option Addresses :=
  Some {| addr_staking := stakingAddress; addr_farming := farmingAddress |}.

(** A token contract whose approvals are sent and then revert. *)
Definition reverting (a : Z) : Erc20 :=
  {| erc_allowance := fun _ _ => inr a;
     erc_approve := fun _ _ => inr (inl Scenario.rpcError) |}.

(** A wallet whose token contracts are [reverting]. *)
Definition walletReverting (a : Z) : Wallet :=
  {| isConnected := true;
     account := Some Scenario.me;
     chainId := Some 1;
     chainIdUndefined := false;
     provider := Some (inr tt);
     tokenAt := fun _ => reverting a |}.

Definition staking : StakingContract :=
  {| sk_stake := fun _ => inr (inr "0x57a4ed");
     sk_unstake := fun _ => inr (inr "0x0257a4ed");
     sk_checkFeeRequirements := fun _ => inl Scenario.rpcError |}.

Definition farming : FarmingContract :=
  {| fm_getPoolInfo := fun _ => inr {| lpToken := lpAddress |};
     fm_deposit := fun _ _ => inr (inr "0xde9051") |}.

(** A factory with three pairs, the second of which cannot be read. *)
Definition factory : Factory :=
  {| f_allPairsLength := inr 3;
     f_allPairs := fun i =>
       if i =? 0 then inr "0xPAIR0"
       else if i =? 1 then inl Scenario.rpcError
       else inr "0xPAIR2" |}.

(** A pair whose reserves cannot be read. *)
Definition pair (address : string) : PairContract :=
  {| p_getReserves := inl Scenario.rpcError;
     p_token0 := inr Scenario.nativeToken;
     p_token1 := inr Scenario.wrappedToken;
     p_totalSupply := inr (5 * 10 ^ 18) |}.

Definition swapRouter : SwapRouter :=
  {| sr_swapExactTokensForTokens := fun _ _ _ _ _ => inr (inr "0x5a9");
     sr_getAmountsOut := fun a _ => inr [a; 2 * a] |}.

(** A transfer of 5 tokens the contract has on record as released. *)
Definition released : RawTransaction :=
  {| raw_txId := Some "0xabc";
     raw_user := Some Scenario.me;
     raw_token := Some Scenario.nativeToken;
     raw_amount := Some (5 * 10 ^ 18);
     raw_fee := Some (125 * 10 ^ 15);
     raw_sourceChain := Some 1;
     raw_targetChain := Some 56;
     raw_targetAddress := Some Scenario.me;
     raw_timestamp := Some 1700000000;
     raw_status := Some 2 |}.

(** The bridge contract of [Scenario.healthy], with that transfer readable. *)
Definition recording : BridgeCore :=
  {| bc_getAddress := bc_getAddress Scenario.healthy;
     bc_lockTokens := bc_lockTokens Scenario.healthy;
     bc_burnAndBridge := bc_burnAndBridge Scenario.healthy;
     bc_getTransaction := fun _ => inr released;
     bc_getUserTransactions := bc_getUserTransactions Scenario.healthy;
     bc_supportedTokens := bc_supportedTokens Scenario.healthy;
     bc_checkFeeRequirements := bc_checkFeeRequirements Scenario.healthy |}.

(** The same contract, except that the transfer "0xdef" cannot be read. *)
Definition halfReadable : BridgeCore :=
  {| bc_getAddress := bc_getAddress Scenario.healthy;
     bc_lockTokens := bc_lockTokens Scenario.healthy;
     bc_burnAndBridge := bc_burnAndBridge Scenario.healthy;
     bc_getTransaction := fun txId =>
       if String.eqb txId "0xdef" then inl Scenario.rpcError else inr released;
     bc_getUserTransactions := bc_getUserTransactions Scenario.healthy;
     bc_supportedTokens := bc_supportedTokens Scenario.healthy;
     bc_checkFeeRequirements := bc_checkFeeRequirements Scenario.healthy |}.


(** A configuration whose only main network is chain 56. *)
Definition bscOnly : list (Z * ChainConfig) :=
  [ (56, {| chainName := "BSC"; isTestnet := false; nativeSymbol := "BNB" |});
    (97, {| chainName := "BSC Testnet"; isTestnet := true; nativeSymbol := "tBNB" |}) ].

Definition chains : list (Z * ChainConfig) :=
  [ (1, {| chainName := "Ethereum"; isTestnet := false; nativeSymbol := "ETH" |});
    (5, {| chainName := "Goerli"; isTestnet := true; nativeSymbol := "ETH" |});
    (56, {| chainName := "BSC"; isTestnet := false; nativeSymbol := "BNB" |});
    (97, {| chainName := "BSC Testnet"; isTestnet := true; nativeSymbol := "tBNB" |}) ].

Definition selector : ChainSelector.State :=
  {| ChainSelector.isOpen := true;
     ChainSelector.showTestnets := false;
     ChainSelector.isProcessing := false;
     ChainSelector.errorMessage := None |}.

End Scenario2.

(* ================================================================== *)
(** ** Basic facts *)

Lemma invocations_app (t1 t2 : list Event) :
  Observe.invocations (t1 ++ t2) = (Observe.invocations t1 ++ Observe.invocations t2)%list.
Proof.
  induction t1 as [|e t1 IH]; simpl; [reflexivity|].
  destruct (Observe.invoked e); simpl; now rewrite IH.
Qed.

(** Unfolds the combinators of [M] and splits on every call's answer. *)
Ltac step_calls :=
  repeat match goal with
    | |- context [match ?x with _ => _ end] =>
        lazymatch x with
        | context [match _ with _ => _ end] => fail
        | _ => idtac
        end;
        first [ is_var x; destruct x
              | let Hx := fresh "Hcall" in destruct x eqn:Hx ];
        simpl in *
    end.

Ltac run_m :=
  unfold bind, tryCatch, call, lift, ret, throw, trace, outcome in *; simpl in *.

Section HookFacts.

Context {E : Ethers}.
Variable w : Wallet.
Variable bridgeContract : option BridgeCore.

(** The hook functions do not call each other. *)
Lemma lockTokens_invokes_nothing tok amt tc ta :
  Observe.invocations
    (trace (UseBridgeContract.lockTokens w bridgeContract tok amt tc ta)) = [].
Proof.
  unfold UseBridgeContract.lockTokens, UseBridgeContract.getSigner.
  run_m. step_calls; reflexivity.
Qed.

Lemma burnAndBridge_invokes_nothing tok amt tc ta :
  Observe.invocations
    (trace (UseBridgeContract.burnAndBridge w bridgeContract tok amt tc ta)) = [].
Proof.
  unfold UseBridgeContract.burnAndBridge.
  run_m. step_calls; reflexivity.
Qed.

Lemma getUserTransactions_invokes_nothing ua :
  Observe.invocations
    (trace (UseBridgeContract.getUserTransactions w bridgeContract ua)) = [].
Proof.
  unfold UseBridgeContract.getUserTransactions.
  run_m. step_calls; reflexivity.
Qed.

(** [getUserTransactions] catches every failure. *)
Lemma getUserTransactions_total ua :
  exists l, outcome (UseBridgeContract.getUserTransactions w bridgeContract ua) = inr l.
Proof.
  unfold UseBridgeContract.getUserTransactions.
  run_m. step_calls; eauto.
Qed.

End HookFacts.

Section ComponentFacts.

Context {E : Ethers}.
Variable getTokensByChain : Z -> list Token.t.
Variable w : Wallet.
Variable bridgeContract : option BridgeCore.

Lemma loadUserTransactions_invokes_nothing st :
  Observe.invocations
    (snd (Bridge.loadUserTransactions w bridgeContract st)) = [].
Proof.
  unfold Bridge.loadUserTransactions.
  destruct (negb (JS.truthy (account w))); [reflexivity|].
  pose proof (getUserTransactions_invokes_nothing w bridgeContract (account w)) as H.
  destruct (UseBridgeContract.getUserTransactions w bridgeContract (account w))
    as [t [e|l]]; exact H.
Qed.

Lemma submit_invokes_once kind tok amt tc dest :
  Observe.invocations
    (trace (Bridge.submit w bridgeContract kind tok amt tc dest)) = [kind].
Proof.
  destruct kind; unfold Bridge.submit.
  - pose proof (lockTokens_invokes_nothing w bridgeContract tok amt tc dest) as H.
    destruct (UseBridgeContract.lockTokens w bridgeContract tok amt tc dest)
      as [t r]; run_m; now rewrite H.
  - pose proof (burnAndBridge_invokes_nothing w bridgeContract tok amt tc dest) as H.
    destruct (UseBridgeContract.burnAndBridge w bridgeContract tok amt tc dest)
      as [t r]; run_m; now rewrite H.
Qed.

(** Past its three guards, [handleBridge] invokes one submit function: the
    one [transferKind] names for the token found. *)
Lemma handleBridge_invokes st :
  isConnected w = true ->
  JS.truthyStr (Bridge.amount st) = true ->
  JS.le0 (JS.parseFloat (Bridge.amount st)) = false ->
  JS.truthyStr (Bridge.selectedToken st) = true ->
  Observe.invocations (snd (Bridge.handleBridge getTokensByChain w bridgeContract st))
  = [Bridge.transferKind w
       (Bridge.findToken getTokensByChain w (Bridge.selectedToken st))].
Proof.
  intros Hc Ha Hp Hs. unfold Bridge.handleBridge.
  rewrite Hc, Ha, Hp, Hs; simpl.
  set (k := Bridge.transferKind w _).
  set (d := JS.orElse _ _).
  pose proof (submit_invokes_once k (Bridge.selectedToken st) (Bridge.amount st)
                (Bridge.toChain st) d) as H.
  destruct (Bridge.submit w bridgeContract k _ _ _ d) as [t [e|r]];
    unfold trace in H; simpl in H.
  - simpl. rewrite invocations_app, H. reflexivity.
  - pose proof (loadUserTransactions_invokes_nothing
                  (Bridge.setDestinationAddress ""
                     (Bridge.setAmount "" (Bridge.setIsBridging true st)))) as HL.
    destruct (Bridge.loadUserTransactions w bridgeContract _) as [st3 t3].
    simpl in *. rewrite invocations_app, H. simpl. now rewrite HL.
Qed.

End ComponentFacts.

(* ================================================================== *)
(** ** Lock or burn *)

Section SubmitFacts.

Context {E : Ethers}.
Variable getTokensByChain : Z -> list Token.t.
Variable w : Wallet.
Variable bridgeContract : option BridgeCore.

(** [find] stops at the first token with the selected address. *)
Lemma findToken_first (selected : string) (T : Token.t)
    (before after : list Token.t) (C : Z) :
  chainId w = Some C -> C <> 0 ->
  getTokensByChain C = (before ++ T :: after)%list ->
  (forall t, In t before -> Token.address t <> selected) ->
  Token.address T = selected ->
  Bridge.findToken getTokensByChain w selected = Some T.
Proof.
  intros HC Hnz Hlist Hbefore HT.
  unfold Bridge.findToken, Bridge.availableTokens. rewrite HC.
  destruct (Z.eqb_spec C 0) as [H0|_]; [contradiction|].
  rewrite Hlist. clear Hlist.
  induction before as [|t before IH]; simpl.
  - rewrite HT, String.eqb_refl. reflexivity.
  - destruct (String.eqb_spec (Token.address t) selected) as [Heq|_].
    + elim (Hbefore t (or_introl eq_refl) Heq).
    + apply IH. intros t' Hin. apply Hbefore. now right.
Qed.

(** Neither hook makes the other's call, and the refresh makes neither. *)
Lemma lockTokens_never_burns tok amt tc ta a b c d :
  ~ In (EBurnAndBridge a b c d)
       (trace (UseBridgeContract.lockTokens w bridgeContract tok amt tc ta)).
Proof.
  unfold UseBridgeContract.lockTokens, UseBridgeContract.getSigner.
  run_m. step_calls; intros Hin; simpl in Hin;
    repeat (destruct Hin as [Hin|Hin]; [discriminate Hin|]); contradiction.
Qed.

Lemma burnAndBridge_never_locks tok amt tc ta a b c d :
  ~ In (ELockTokens a b c d)
       (trace (UseBridgeContract.burnAndBridge w bridgeContract tok amt tc ta)).
Proof.
  unfold UseBridgeContract.burnAndBridge.
  run_m. step_calls; intros Hin; simpl in Hin;
    repeat (destruct Hin as [Hin|Hin]; [discriminate Hin|]); contradiction.
Qed.

Lemma loadUserTransactions_moves_nothing st e :
  In e (snd (Bridge.loadUserTransactions w bridgeContract st)) ->
  Observe.isTransfer e = false.
Proof.
  unfold Bridge.loadUserTransactions, UseBridgeContract.getUserTransactions.
  run_m. step_calls; intros Hin; simpl in Hin;
    repeat (destruct Hin as [Hin|Hin]; [subst e; reflexivity|]); contradiction.
Qed.

(** What [handleBridge] does past its guards: the submit function for the
    kind of the token found, then the alert, then, after a success, the
    refresh of the history. *)
Lemma handleBridge_runs (st : Bridge.State) :
  isConnected w = true ->
  JS.truthyStr (Bridge.amount st) = true ->
  JS.le0 (JS.parseFloat (Bridge.amount st)) = false ->
  JS.truthyStr (Bridge.selectedToken st) = true ->
  let run :=
    Bridge.submit w bridgeContract
      (Bridge.transferKind w
         (Bridge.findToken getTokensByChain w (Bridge.selectedToken st)))
      (Bridge.selectedToken st) (Bridge.amount st) (Bridge.toChain st)
      (JS.orElse (Some (Bridge.destinationAddress st)) (account w)) in
  snd (Bridge.handleBridge getTokensByChain w bridgeContract st)
  = (trace run
     ++ match outcome run with
        | inl _ => [EAlert Bridge.failedMessage]
        | inr _ =>
            EAlert Bridge.initiatedMessage
            :: snd (Bridge.loadUserTransactions w bridgeContract
                      (Bridge.setDestinationAddress ""
                         (Bridge.setAmount "" (Bridge.setIsBridging true st))))
        end)%list.
Proof.
  intros Hc Ha Hp Hs run. subst run.
  unfold Bridge.handleBridge. rewrite Hc, Ha, Hp, Hs; simpl.
  destruct (Bridge.submit w bridgeContract _ _ _ _ _) as [t [e|r]];
    unfold trace, outcome; simpl; [reflexivity|].
  destruct (Bridge.loadUserTransactions w bridgeContract _) as [st3 t3].
  reflexivity.
Qed.

End SubmitFacts.

(** C1. For the token [T] that [find] returns for the selected address
    among the tokens listed for the wallet's chain [C], the transfer is a
    [Lock] exactly when [T]'s chain is [C] and a [BurnAndMint] otherwise.
    Past its guards [handleBridge] then runs, for a [Lock], [lockTokens]
    and, for a [BurnAndMint], [burnAndBridge], on the selected address, the
    amount, the target chain and the destination entered (the account when
    none is), and nothing but the alert and the refresh of the history
    after it; the other hook's call is never issued.  The kind is the same
    for every wallet on the same chain, whatever its balances and
    allowances. *)
Theorem classification_by_home_chain {E : Ethers}
    (getTokensByChain : Z -> list Token.t) (w : Wallet)
    (bridgeContract : option BridgeCore) (st : Bridge.State)
    (T : Token.t) (C : Z) (before after : list Token.t) :
  chainId w = Some C ->
  C <> 0 ->
  getTokensByChain C = (before ++ T :: after)%list ->
  (forall t, In t before -> Token.address t <> Bridge.selectedToken st) ->
  Token.address T = Bridge.selectedToken st ->
  isConnected w = true ->
  JS.truthyStr (Bridge.amount st) = true ->
  JS.le0 (JS.parseFloat (Bridge.amount st)) = false ->
  JS.truthyStr (Bridge.selectedToken st) = true ->
  let destination :=
    JS.orElse (Some (Bridge.destinationAddress st)) (account w) in
  let lock :=
    UseBridgeContract.lockTokens w bridgeContract (Bridge.selectedToken st)
      (Bridge.amount st) (Bridge.toChain st) destination in
  let burn :=
    UseBridgeContract.burnAndBridge w bridgeContract (Bridge.selectedToken st)
      (Bridge.amount st) (Bridge.toChain st) destination in
  let afterwards (r : JS.Res Receipt) :=
    match r with
    | inl _ => [EAlert Bridge.failedMessage]
    | inr _ =>
        EAlert Bridge.initiatedMessage
        :: snd (Bridge.loadUserTransactions w bridgeContract
                  (Bridge.setDestinationAddress ""
                     (Bridge.setAmount "" (Bridge.setIsBridging true st))))
    end in
  let t := snd (Bridge.handleBridge getTokensByChain w bridgeContract st) in
  (Bridge.transferKind w (Some T) = Lock <-> Token.chainId T = C) /\
  (Bridge.transferKind w (Some T) = BurnAndMint <-> Token.chainId T <> C) /\
  Observe.invocations t = [Bridge.transferKind w (Some T)] /\
  (Token.chainId T = C ->
   t = (EHookLockTokens (Bridge.selectedToken st) (Bridge.amount st)
          (Bridge.toChain st) destination
        :: trace lock ++ afterwards (outcome lock))%list /\
   forall a b c d, ~ In (EBurnAndBridge a b c d) t) /\
  (Token.chainId T <> C ->
   t = (EHookBurnAndBridge (Bridge.selectedToken st) (Bridge.amount st)
          (Bridge.toChain st) destination
        :: trace burn ++ afterwards (outcome burn))%list /\
   forall a b c d, ~ In (ELockTokens a b c d) t) /\
  (forall w' : Wallet, chainId w' = chainId w ->
     Bridge.transferKind w' (Some T) = Bridge.transferKind w (Some T)).
Proof.
  intros HC Hnz Hlist Hbefore HT Hc Ha Hp Hs destination lock burn afterwards t.
  pose proof (findToken_first getTokensByChain w (Bridge.selectedToken st) T
                before after C HC Hnz Hlist Hbefore HT) as Hfind.
  assert (Hk : Bridge.transferKind w (Some T)
               = if Token.chainId T =? C then Lock else BurnAndMint).
  { unfold Bridge.transferKind, Bridge.isNativeToken. now rewrite HC. }
  assert (Hrun := handleBridge_runs getTokensByChain w bridgeContract st
                    Hc Ha Hp Hs).
  cbv zeta in Hrun. rewrite Hfind, Hk in Hrun. fold destination in Hrun.
  assert (Hquiet : forall r e, In e (afterwards r) -> Observe.isTransfer e = false).
  { intros [e0|r] e Hin; simpl in Hin.
    - destruct Hin as [<-|[]]. reflexivity.
    - destruct Hin as [<-|Hin]; [reflexivity|].
      now apply loadUserTransactions_moves_nothing in Hin. }
  split; [|split; [|split; [|split; [|split]]]].
  - rewrite Hk. destruct (Z.eqb_spec (Token.chainId T) C); split;
      congruence.
  - rewrite Hk. destruct (Z.eqb_spec (Token.chainId T) C); split;
      congruence.
  - subst t. rewrite <- Hfind. now apply handleBridge_invokes.
  - intros Heq. apply Z.eqb_eq in Heq. rewrite Heq in Hrun.
    assert (Ht : t = (EHookLockTokens (Bridge.selectedToken st) (Bridge.amount st)
                        (Bridge.toChain st) destination
                      :: trace lock ++ afterwards (outcome lock))%list).
    { subst t. rewrite Hrun. unfold Bridge.submit. fold lock.
      destruct lock as [tl rl]. run_m. destruct rl; reflexivity. }
    split; [exact Ht|].
    intros a b c d Hin. rewrite Ht in Hin.
    destruct Hin as [Hin|Hin]; [discriminate Hin|].
    apply in_app_or in Hin as [Hin|Hin].
    + now apply lockTokens_never_burns in Hin.
    + apply Hquiet in Hin. discriminate Hin.
  - intros Hne. apply Z.eqb_neq in Hne. rewrite Hne in Hrun.
    assert (Ht : t = (EHookBurnAndBridge (Bridge.selectedToken st) (Bridge.amount st)
                        (Bridge.toChain st) destination
                      :: trace burn ++ afterwards (outcome burn))%list).
    { subst t. rewrite Hrun. unfold Bridge.submit. fold burn.
      destruct burn as [tb rb]. run_m. destruct rb; reflexivity. }
    split; [exact Ht|].
    intros a b c d Hin. rewrite Ht in Hin.
    destruct Hin as [Hin|Hin]; [discriminate Hin|].
    apply in_app_or in Hin as [Hin|Hin].
    + now apply burnAndBridge_never_locks in Hin.
    + apply Hquiet in Hin. discriminate Hin.
  - intros w' Hw'. unfold Bridge.transferKind, Bridge.isNativeToken.
    now rewrite Hw'.
Qed.

Lemma classification_by_home_chain_witness :
  let T := {| Token.address := Scenario.nativeToken; Token.chainId := 1;
              Token.symbol := "ESR"; Token.name := "ESR Token" |} in
  let w := Scenario.wallet 0 in
  let st := Scenario.page Scenario.nativeToken "1" 56 in
  let t := snd (Bridge.handleBridge Scenario.getTokensByChain w
                  (Some Scenario.healthy) st) in
  Bridge.transferKind w (Some T) = Lock /\
  t = [EHookLockTokens Scenario.nativeToken "1" 56 (Some Scenario.me);
       EGetSigner; EGetAddress;
       EAllowance Scenario.nativeToken Scenario.me Scenario.bridgeAddress;
       EApprove Scenario.nativeToken Scenario.bridgeAddress (10 ^ 18);
       EApproveWait;
       ELockTokens Scenario.nativeToken (10 ^ 18) 56 Scenario.me;
       ESubmitWait;
       EAlert Bridge.initiatedMessage;
       EGetUserTransactions Scenario.me] /\
  forall a b c d, ~ In (EBurnAndBridge a b c d) t.
Proof.
  intros T w st t.
  destruct (classification_by_home_chain Scenario.getTokensByChain w
              (Some Scenario.healthy) st T 1 []
              [{| Token.address := Scenario.wrappedToken; Token.chainId := 56;
                  Token.symbol := "wBNB"; Token.name := "Wrapped BNB" |}]
              eq_refl ltac:(discriminate) eq_refl
              ltac:(intros t0 H0; elim H0) eq_refl eq_refl eq_refl eq_refl
              eq_refl)
    as [Hlock [_ [_ [Hrun _]]]].
  destruct (Hrun eq_refl) as [Ht Hno].
  split; [now apply Hlock|]. split; [|exact Hno].
  subst t. rewrite Ht. reflexivity.
Defined.

(* ================================================================== *)
(** ** Authorization before the transfer call *)

(** C2 (amended). Whenever [lockTokens] issues the lock call, with amount
    [A], the calls before it are: the signer, the bridge address, the read
    of the account's allowance for the bridge address and, exactly when
    that allowance is below [A], an approval for [A] and the wait for its
    confirmation, which both succeeded; with an allowance of at least [A]
    the lock call follows the read directly.  Conversely, once the signer,
    the amount, the bridge address and the allowance are there,
    [lockTokens] always goes on: with an allowance below [A] it sends the
    approval for [A], waits for it when it was sent, and issues the lock
    call when it was confirmed; with an allowance of at least [A] it issues
    the lock call at once.  [burnAndBridge] issues nothing but the burn
    call and the wait for it, and issues the burn call first whenever it
    has an account and the amount. *)
Theorem lock_path_authorizes_first {E : Ethers} (w : Wallet) (bridge : BridgeCore)
    (tok amt : string) (tc : Z) (ta : option string) :
  (forall (A : Z) (d : string),
     In (ELockTokens tok A tc d)
        (trace (UseBridgeContract.lockTokens w (Some bridge) tok amt tc ta)) ->
     exists acct spender al rest,
       account w = Some acct /\
       bc_getAddress bridge = inr spender /\
       parseEther amt = inr A /\
       erc_allowance (tokenAt w tok) acct spender = inr al /\
       (al < A -> exists receipt,
          erc_approve (tokenAt w tok) spender A = inr (inr receipt)) /\
       trace (UseBridgeContract.lockTokens w (Some bridge) tok amt tc ta)
       = ([EGetSigner; EGetAddress; EAllowance tok acct spender]
          ++ (if al <? A then [EApprove tok spender A; EApproveWait] else [])
          ++ ELockTokens tok A tc d :: rest)%list) /\
  (forall (acct spender : string) (A al : Z),
     account w = Some acct ->
     JS.truthyStr acct = true ->
     provider w = Some (inr tt) ->
     parseEther amt = inr A ->
     bc_getAddress bridge = inr spender ->
     erc_allowance (tokenAt w tok) acct spender = inr al ->
     let lockCall :=
       ELockTokens tok A tc (JS.orStr ta acct)
       :: match bc_lockTokens bridge tok A tc (JS.orStr ta acct) with
          | inl _ => []
          | inr _ => [ESubmitWait]
          end in
     trace (UseBridgeContract.lockTokens w (Some bridge) tok amt tc ta)
     = ([EGetSigner; EGetAddress; EAllowance tok acct spender]
        ++ (if al <? A
            then EApprove tok spender A
                 :: match erc_approve (tokenAt w tok) spender A with
                    | inl _ => []
                    | inr (inl _) => [EApproveWait]
                    | inr (inr _) => EApproveWait :: lockCall
                    end
            else lockCall))%list) /\
  (forall e : Event,
     In e (trace (UseBridgeContract.burnAndBridge w (Some bridge) tok amt tc ta)) ->
     (exists A d, parseEther amt = inr A /\ e = EBurnAndBridge tok A tc d) \/
     e = ESubmitWait) /\
  (forall (acct : string) (A : Z),
     account w = Some acct ->
     JS.truthyStr acct = true ->
     parseEther amt = inr A ->
     trace (UseBridgeContract.burnAndBridge w (Some bridge) tok amt tc ta)
     = EBurnAndBridge tok A tc (JS.orStr ta acct)
       :: match bc_burnAndBridge bridge tok A tc (JS.orStr ta acct) with
          | inl _ => []
          | inr _ => [ESubmitWait]
          end).
Proof.
  split; [|split; [|split]].
  - intros A d.
    unfold UseBridgeContract.lockTokens, UseBridgeContract.getSigner.
    run_m. step_calls; intros H; simpl in H;
      repeat (destruct H as [H|H]; [try discriminate H|]); try contradiction.
    all: injection H as -> ->.
    all: exists s, s0, z0; eexists; repeat split; try eassumption;
      [ intros Hlt;
        first [ eexists; eassumption
              | match goal with
                | Hge : (_ <? _) = false |- _ => apply Z.ltb_ge in Hge; lia
                end ]
      | match goal with Hcmp : (_ <? _) = _ |- _ => rewrite Hcmp end;
        reflexivity ].
  - intros acct spender A al Hacct Ht Hp Hparse Haddr Hal lockCall.
    subst lockCall.
    unfold UseBridgeContract.lockTokens, UseBridgeContract.getSigner.
    rewrite Hacct, Ht, Hp. run_m. rewrite Hparse; simpl.
    rewrite Haddr; simpl. rewrite Hal; simpl.
    destruct (al <? A); simpl.
    + destruct (erc_approve (tokenAt w tok) spender A) as [e|[e|r]]; simpl;
        try reflexivity.
      destruct (bc_lockTokens bridge tok A tc (JS.orStr ta acct)); reflexivity.
    + destruct (bc_lockTokens bridge tok A tc (JS.orStr ta acct)); reflexivity.
  - intros e.
    unfold UseBridgeContract.burnAndBridge. run_m.
    step_calls; intros Hin; simpl in Hin;
      repeat (destruct Hin as [<-|Hin]; [eauto|]); contradiction.
  - intros acct A Hacct Ht Hparse.
    unfold UseBridgeContract.burnAndBridge.
    rewrite Hacct, Ht. run_m. rewrite Hparse; simpl.
    destruct (bc_burnAndBridge bridge tok A tc (JS.orStr ta acct)); reflexivity.
Qed.

(** On the lock path every value-moving call comes after an allowance read,
    whatever the chain answers. *)
Lemma lockTokens_reads_allowance_first {E : Ethers} (w : Wallet)
    (bridgeContract : option BridgeCore) (tok amt : string) (tc : Z)
    (ta : option string) :
  Observe.allowanceReadFirst false
    (trace (UseBridgeContract.lockTokens w bridgeContract tok amt tc ta)) = true.
Proof.
  unfold UseBridgeContract.lockTokens, UseBridgeContract.getSigner.
  run_m. step_calls; reflexivity.
Qed.

(** C2, as stated, fails on the burn path: with an allowance of 0 and an
    amount of 500, [burnAndBridge] issues the burn call at once; no
    allowance is read and no approval is issued. *)
Lemma burn_path_reads_no_allowance :
  let w := Scenario.wallet 0 in
  let t := trace (UseBridgeContract.burnAndBridge w (Some Scenario.healthy)
                    Scenario.wrappedToken "500" 56 None) in
  erc_allowance (tokenAt w Scenario.wrappedToken) Scenario.me Scenario.bridgeAddress
    = inr 0 /\
  parseEther "500" = inr (500 * 10 ^ 18) /\
  t = [EBurnAndBridge Scenario.wrappedToken (500 * 10 ^ 18) 56 Scenario.me;
       ESubmitWait] /\
  Observe.allowanceReadFirst false t = false.
Proof. vm_compute. repeat split. Qed.

Lemma lock_path_authorizes_first_witness :
  let w := Scenario.wallet 100 in
  let A := 500 * 10 ^ 18 in
  trace (UseBridgeContract.lockTokens w (Some Scenario.healthy)
           Scenario.nativeToken "500" 56 None)
  = [EGetSigner; EGetAddress;
     EAllowance Scenario.nativeToken Scenario.me Scenario.bridgeAddress;
     EApprove Scenario.nativeToken Scenario.bridgeAddress A; EApproveWait;
     ELockTokens Scenario.nativeToken A 56 Scenario.me; ESubmitWait] /\
  (exists acct spender al rest,
     account w = Some acct /\
     bc_getAddress Scenario.healthy = inr spender /\
     parseEther "500" = inr A /\
     erc_allowance (tokenAt w Scenario.nativeToken) acct spender = inr al /\
     (al < A -> exists receipt,
        erc_approve (tokenAt w Scenario.nativeToken) spender A = inr (inr receipt)) /\
     trace (UseBridgeContract.lockTokens w (Some Scenario.healthy)
              Scenario.nativeToken "500" 56 None)
     = ([EGetSigner; EGetAddress; EAllowance Scenario.nativeToken acct spender]
        ++ (if al <? A then [EApprove Scenario.nativeToken spender A; EApproveWait] else [])
        ++ ELockTokens Scenario.nativeToken A 56 Scenario.me :: rest)%list) /\
  trace (UseBridgeContract.burnAndBridge w (Some Scenario.healthy)
           Scenario.nativeToken "500" 56 None)
  = [EBurnAndBridge Scenario.nativeToken A 56 Scenario.me; ESubmitWait].
Proof.
  intros w A.
  destruct (lock_path_authorizes_first w Scenario.healthy Scenario.nativeToken
              "500" 56 None) as [Hback [Hforth [_ Hburn]]].
  split; [|split].
  - rewrite (Hforth Scenario.me Scenario.bridgeAddress A 100
               eq_refl eq_refl eq_refl eq_refl eq_refl eq_refl).
    reflexivity.
  - apply (Hback A Scenario.me). vm_compute. tauto.
  - rewrite (Hburn Scenario.me A eq_refl eq_refl eq_refl). reflexivity.
Defined.

(* ================================================================== *)
(** ** Fee estimation *)

Section FeeFacts.

Context {E : Ethers}.
Variable bridge : BridgeCore.
Variables tok amt : string.

(** The estimate when the contract reports the token. *)
Lemma estimate_quoted (info : TokenInfo) (A : Z) (s : string) :
  bc_supportedTokens bridge tok = inr info ->
  parseEther amt = inr A ->
  formatEther (JS.bigDiv (A * UseBridgeContract.feeRate info) 10000) = inr s ->
  UseBridgeContract.estimateBridgeFee (Some bridge) tok amt
  = ([ESupportedTokens tok], inr s).
Proof.
  intros Hi Hp Hf. unfold UseBridgeContract.estimateBridgeFee. run_m.
  rewrite Hi, Hp; simpl. now rewrite Hf.
Qed.

(** The estimate when the contract cannot report the token. *)
Lemma estimate_fallback (e : JS.Error) (A : Z) (s : string) :
  bc_supportedTokens bridge tok = inl e ->
  parseEther amt = inr A ->
  formatEther (JS.bigDiv (A * 250) 10000) = inr s ->
  UseBridgeContract.estimateBridgeFee (Some bridge) tok amt
  = ([ESupportedTokens tok], inr s).
Proof.
  intros Hi Hp Hf. unfold UseBridgeContract.estimateBridgeFee. run_m.
  rewrite Hi, Hp; simpl. now rewrite Hf.
Qed.

End FeeFacts.

Lemma feeRate_nonzero (r : Z) :
  r <> 0 -> UseBridgeContract.feeRate {| info_fee := Some r |} = r.
Proof.
  intros Hr. unfold UseBridgeContract.feeRate; simpl.
  destruct (Z.eqb_spec r 0); [contradiction|reflexivity].
Qed.

Lemma feeRate_default (info : TokenInfo) :
  info_fee info = Some 0 \/ info_fee info = None ->
  UseBridgeContract.feeRate info = 250.
Proof.
  unfold UseBridgeContract.feeRate. intros [-> | ->]; reflexivity.
Qed.

(** What [EthersV6.parse] returns is in the range [EthersV6.format] prints. *)
Lemma parse_inRange (s : string) (v : Z) :
  EthersV6.parse s = inr v -> EthersV6.inRange v = true.
Proof.
  unfold EthersV6.parse.
  destruct (EthersV6.split s) as [[[negative whole] frac]|]; [|discriminate].
  destruct (EthersV6.allZeros _); [|discriminate].
  match goal with
  | |- context [EthersV6.inRange ?x] => destruct (EthersV6.inRange x) eqn:Hr
  end; [|discriminate].
  intros H; injection H as <-. exact Hr.
Qed.

Lemma format_inRange (v : Z) :
  EthersV6.inRange v = true -> exists s, EthersV6.format v = inr s.
Proof.
  intros H. unfold EthersV6.format. rewrite H. eexists; reflexivity.
Qed.

(** The fallback fee of a positive amount in range is in range. *)
Lemma fallback_inRange (A : Z) :
  0 < A -> EthersV6.inRange A = true ->
  EthersV6.inRange (A * 250 / 10000) = true.
Proof.
  unfold EthersV6.inRange, EthersV6.limit. intros HA H.
  apply andb_true_iff in H as [_ Hhi]. apply Z.ltb_lt in Hhi.
  assert (0 <= A * 250 / 10000) by (apply Z.div_pos; lia).
  assert (A * 250 / 10000 <= A).
  { apply Z.div_le_upper_bound; lia. }
  assert (0 < 2 ^ 511) by (apply Z.pow_pos_nonneg; lia).
  apply andb_true_iff; split; [apply Z.leb_le | apply Z.ltb_lt]; lia.
Qed.

(** C3 (amended). For a positive amount [A], when the contract cannot
    report the token, the estimate is [A * 250 / 10000] in whole units of
    the scaled amount, formatted; what is returned is that bare string, the
    same (with the same calls) as the estimate a contract reporting 250
    basis points gives: nothing in it tells the fallback from a quote.
    With version 6 of the library the estimate is returned for every
    positive amount the library reads. *)
Theorem fallback_fee_unflagged {E : Ethers} (bridge : BridgeCore)
    (tok amt : string) (A : Z) (s : string) (e : JS.Error) :
  0 < A ->
  bc_supportedTokens bridge tok = inl e ->
  parseEther amt = inr A ->
  formatEther (A * 250 / 10000) = inr s ->
  UseBridgeContract.estimateBridgeFee (Some bridge) tok amt
  = ([ESupportedTokens tok], inr s) /\
  (forall bridge' : BridgeCore,
     bc_supportedTokens bridge' tok = inr {| info_fee := Some 250 |} ->
     UseBridgeContract.estimateBridgeFee (Some bridge') tok amt
     = UseBridgeContract.estimateBridgeFee (Some bridge) tok amt) /\
  (forall A' : Z,
     EthersV6.parse amt = inr A' -> 0 < A' ->
     exists s' : string,
       EthersV6.format (A' * 250 / 10000) = inr s' /\
       UseBridgeContract.estimateBridgeFee (E := EthersV6.ethers)
         (Some bridge) tok amt
       = ([ESupportedTokens tok], inr s')).
Proof.
  intros HA He Hp Hf.
  assert (Htotal : forall A' : Z,
     EthersV6.parse amt = inr A' -> 0 < A' ->
     exists s' : string,
       EthersV6.format (A' * 250 / 10000) = inr s' /\
       UseBridgeContract.estimateBridgeFee (E := EthersV6.ethers)
         (Some bridge) tok amt
       = ([ESupportedTokens tok], inr s')).
  { intros A' Hp' HA'.
    destruct (format_inRange (A' * 250 / 10000)) as [s' Hs'].
    { apply fallback_inRange; [assumption|]. now apply parse_inRange with amt. }
    exists s'. split; [exact Hs'|].
    apply (estimate_fallback (E := EthersV6.ethers)) with (e := e) (A := A');
      [assumption..|].
    unfold JS.bigDiv. rewrite Z.quot_div_nonneg by lia. exact Hs'. }
  assert (Hq : JS.bigDiv (A * 250) 10000 = A * 250 / 10000).
  { unfold JS.bigDiv. apply Z.quot_div_nonneg; lia. }
  assert (H1 : UseBridgeContract.estimateBridgeFee (Some bridge) tok amt
               = ([ESupportedTokens tok], inr s)).
  { apply estimate_fallback with (e := e) (A := A); [assumption..|].
    now rewrite Hq. }
  split; [exact H1|]. split; [|exact Htotal].
  intros bridge' Hi. rewrite H1.
  apply estimate_quoted with (info := {| info_fee := Some 250 |}) (A := A);
    [assumption..|].
  rewrite feeRate_nonzero by lia. now rewrite Hq.
Qed.

Lemma fallback_fee_unflagged_witness :
  UseBridgeContract.estimateBridgeFee (Some Scenario.unreachable)
    Scenario.nativeToken "1000.0"
  = ([ESupportedTokens Scenario.nativeToken], inr "25.0") /\
  (forall bridge' : BridgeCore,
     bc_supportedTokens bridge' Scenario.nativeToken = inr {| info_fee := Some 250 |} ->
     UseBridgeContract.estimateBridgeFee (Some bridge') Scenario.nativeToken "1000.0"
     = UseBridgeContract.estimateBridgeFee (Some Scenario.unreachable)
         Scenario.nativeToken "1000.0") /\
  (forall A' : Z,
     EthersV6.parse "1000.0" = inr A' -> 0 < A' ->
     exists s' : string,
       EthersV6.format (A' * 250 / 10000) = inr s' /\
       UseBridgeContract.estimateBridgeFee (E := EthersV6.ethers)
         (Some Scenario.unreachable) Scenario.nativeToken "1000.0"
       = ([ESupportedTokens Scenario.nativeToken], inr s')).
Proof.
  apply (fallback_fee_unflagged Scenario.unreachable Scenario.nativeToken
           "1000.0" (1000 * 10 ^ 18) "25.0" Scenario.rpcError);
    [lia | reflexivity | reflexivity | reflexivity].
Defined.

(** C3, as stated, fails: no observation of what [estimateBridgeFee] does
    and returns tells the fallback (the contract unreachable) from a quote
    (the contract reporting 250 basis points). *)
Lemma fallback_fee_has_no_flag :
  ~ (exists flag : M string -> bool,
       flag (UseBridgeContract.estimateBridgeFee (Some Scenario.unreachable)
               Scenario.nativeToken "1000.0") = true /\
       flag (UseBridgeContract.estimateBridgeFee (Some Scenario.healthy)
               Scenario.nativeToken "1000.0") = false).
Proof.
  intros [flag [Hfallback Hquoted]].
  assert (Hsame :
    UseBridgeContract.estimateBridgeFee (Some Scenario.unreachable)
      Scenario.nativeToken "1000.0"
    = UseBridgeContract.estimateBridgeFee (Some Scenario.healthy)
        Scenario.nativeToken "1000.0") by reflexivity.
  rewrite Hsame in Hfallback. congruence.
Qed.

(** C6 (amended). For every amount [A] and every rate [r] other than 0 that
    the contract reports, the token fee is [A * r / 10000] in BigInt
    arithmetic on the scaled amount (the quotient truncated), formatted;
    for 1000.0 tokens at 250 basis points it is 25.0; and the fee panel
    shows the flat "$3 USDT" fee in a row of its own, next to the row of
    the token fee. *)
Theorem proportional_fee {E : Ethers} (bridge : BridgeCore)
    (st : Bridge.State) (A r : Z) (s : string) :
  r <> 0 ->
  JS.truthyStr (Bridge.selectedToken st) = true ->
  JS.truthyStr (Bridge.amount st) = true ->
  bc_supportedTokens bridge (Bridge.selectedToken st) = inr {| info_fee := Some r |} ->
  parseEther (Bridge.amount st) = inr A ->
  formatEther (JS.bigDiv (A * r) 10000) = inr s ->
  UseBridgeContract.estimateBridgeFee (Some bridge)
    (Bridge.selectedToken st) (Bridge.amount st)
  = ([ESupportedTokens (Bridge.selectedToken st)], inr s) /\
  Bridge.feePanel (fst (Bridge.estimateFee (Some bridge) st))
  = [ ("Bridge Fee", "$3 USDT");
      ("Token Fee", s ++ " tokens");
      ("Estimated Time", Bridge.estimatedTime st) ] /\
  UseBridgeContract.estimateBridgeFee (E := EthersV6.ethers)
    (Some Scenario.healthy) Scenario.nativeToken "1000.0"
  = ([ESupportedTokens Scenario.nativeToken], inr "25.0").
Proof.
  intros Hr Hs Ha Hi Hp Hf.
  assert (H1 : UseBridgeContract.estimateBridgeFee (Some bridge)
                 (Bridge.selectedToken st) (Bridge.amount st)
               = ([ESupportedTokens (Bridge.selectedToken st)], inr s)).
  { apply estimate_quoted with (info := {| info_fee := Some r |}) (A := A);
      [assumption..|].
    now rewrite feeRate_nonzero. }
  split; [exact H1|]. split; [|reflexivity].
  unfold Bridge.estimateFee. rewrite Hs, Ha, H1. reflexivity.
Qed.

Lemma proportional_fee_witness :
  let st := Scenario.page Scenario.nativeToken "1000.0" 56 in
  UseBridgeContract.estimateBridgeFee (Some Scenario.healthy)
    (Bridge.selectedToken st) (Bridge.amount st)
  = ([ESupportedTokens (Bridge.selectedToken st)], inr "25.0") /\
  Bridge.feePanel (fst (Bridge.estimateFee (Some Scenario.healthy) st))
  = [ ("Bridge Fee", "$3 USDT");
      ("Token Fee", "25.0" ++ " tokens");
      ("Estimated Time", Bridge.estimatedTime st) ] /\
  UseBridgeContract.estimateBridgeFee (E := EthersV6.ethers)
    (Some Scenario.healthy) Scenario.nativeToken "1000.0"
  = ([ESupportedTokens Scenario.nativeToken], inr "25.0").
Proof.
  intros st.
  apply (proportional_fee Scenario.healthy st (1000 * 10 ^ 18) 250 "25.0");
    [lia | reflexivity | reflexivity | reflexivity | reflexivity | reflexivity].
Defined.

(** C6, as stated, fails at the rate 0: for 1000.0 tokens the formula gives
    a fee of 0.0, and [estimateBridgeFee] returns 25.0. *)
Lemma zero_rate_is_not_proportional :
  bc_supportedTokens Scenario.zeroRated Scenario.nativeToken
    = inr {| info_fee := Some 0 |} /\
  parseEther "1000.0" = inr (1000 * 10 ^ 18) /\
  formatEther (JS.bigDiv (1000 * 10 ^ 18 * 0) 10000) = inr "0.0" /\
  outcome (UseBridgeContract.estimateBridgeFee (Some Scenario.zeroRated)
             Scenario.nativeToken "1000.0") = inr "25.0" /\
  outcome (UseBridgeContract.estimateBridgeFee (Some Scenario.zeroRated)
             Scenario.nativeToken "1000.0")
  <> formatEther (JS.bigDiv (1000 * 10 ^ 18 * 0) 10000).
Proof.
  repeat split; try reflexivity.
  vm_compute. discriminate.
Qed.

(** C9. When the contract reports the token with a rate of 0, or with no
    rate at all, the estimate is computed at 250 basis points, not at 0:
    it is [A * 250 / 10000] (BigInt quotient), formatted, the same, with
    the same calls, as the estimate when the contract cannot report the
    token. *)
Theorem zero_rate_reads_as_default {E : Ethers} (bridge : BridgeCore)
    (tok amt : string) (info : TokenInfo) (A : Z) (s : string) :
  bc_supportedTokens bridge tok = inr info ->
  info_fee info = Some 0 \/ info_fee info = None ->
  parseEther amt = inr A ->
  formatEther (JS.bigDiv (A * 250) 10000) = inr s ->
  UseBridgeContract.estimateBridgeFee (Some bridge) tok amt
  = ([ESupportedTokens tok], inr s) /\
  (forall (bridge' : BridgeCore) (e : JS.Error),
     bc_supportedTokens bridge' tok = inl e ->
     UseBridgeContract.estimateBridgeFee (Some bridge') tok amt
     = UseBridgeContract.estimateBridgeFee (Some bridge) tok amt).
Proof.
  intros Hi Hz Hp Hf.
  assert (H1 : UseBridgeContract.estimateBridgeFee (Some bridge) tok amt
               = ([ESupportedTokens tok], inr s)).
  { apply estimate_quoted with (info := info) (A := A); [assumption..|].
    now rewrite feeRate_default. }
  split; [exact H1|].
  intros bridge' e He. rewrite H1.
  now apply estimate_fallback with (e := e) (A := A).
Qed.

Lemma zero_rate_reads_as_default_witness :
  UseBridgeContract.estimateBridgeFee (Some Scenario.zeroRated)
    Scenario.nativeToken "1000.0"
  = ([ESupportedTokens Scenario.nativeToken], inr "25.0") /\
  (forall (bridge' : BridgeCore) (e : JS.Error),
     bc_supportedTokens bridge' Scenario.nativeToken = inl e ->
     UseBridgeContract.estimateBridgeFee (Some bridge') Scenario.nativeToken "1000.0"
     = UseBridgeContract.estimateBridgeFee (Some Scenario.zeroRated)
         Scenario.nativeToken "1000.0").
Proof.
  apply (zero_rate_reads_as_default Scenario.zeroRated Scenario.nativeToken
           "1000.0" {| info_fee := Some 0 |} (1000 * 10 ^ 18) "25.0");
    [reflexivity | left; reflexivity | reflexivity | reflexivity].
Defined.

(* ================================================================== *)
(** ** Reading transactions *)

(** C4 (amended). For every handle, when the contract read behind
    [getTransaction] fails, [getTransaction] does not raise: after that one
    read it returns the placeholder for the handle, with empty user, token
    and target address, amount and fee "0", chains and time stamp 0, and
    the status [Pending].  ([getTransaction] keeps no entry of its own.) *)
Theorem failed_read_yields_placeholder {E : Ethers} (bridge : BridgeCore)
    (txId : string) (e : JS.Error) :
  bc_getTransaction bridge txId = inl e ->
  UseBridgeContract.getTransaction (Some bridge) txId
  = ([EGetTransaction txId], inr (UseBridgeContract.emptyTransaction txId)) /\
  BridgeTransaction.txId (UseBridgeContract.emptyTransaction txId) = txId /\
  BridgeTransaction.status (UseBridgeContract.emptyTransaction txId)
  = statusCode Pending.
Proof.
  intros He. unfold UseBridgeContract.getTransaction. run_m.
  rewrite He. repeat split.
Qed.

Lemma failed_read_yields_placeholder_witness :
  UseBridgeContract.getTransaction (Some Scenario.unreachable) "0xdef"
  = ([EGetTransaction "0xdef"], inr (UseBridgeContract.emptyTransaction "0xdef")) /\
  BridgeTransaction.txId (UseBridgeContract.emptyTransaction "0xdef") = "0xdef" /\
  BridgeTransaction.status (UseBridgeContract.emptyTransaction "0xdef")
  = statusCode Pending.
Proof.
  apply (failed_read_yields_placeholder Scenario.unreachable "0xdef"
           Scenario.rpcError).
  reflexivity.
Defined.

(** C4, as stated, fails: with the read of "0xdef" failing,
    [getTransaction] returns normally, and what it returns carries the
    status [Pending], which the contract never sent. *)
Lemma failed_read_is_not_reported :
  bc_getTransaction Scenario.unreachable "0xdef" = inl Scenario.rpcError /\
  JS.isOk (outcome (UseBridgeContract.getTransaction
                      (Some Scenario.unreachable) "0xdef")) = true /\
  (forall e : JS.Error,
     outcome (UseBridgeContract.getTransaction
                (Some Scenario.unreachable) "0xdef") <> inl e) /\
  (exists tx : BridgeTransaction.t,
     outcome (UseBridgeContract.getTransaction
                (Some Scenario.unreachable) "0xdef") = inr tx /\
     BridgeTransaction.status tx = statusCode Pending).
Proof.
  repeat split.
  - intros e. vm_compute. discriminate.
  - eexists. split; reflexivity.
Qed.

(** C5 (amended). For a connected account, loading the user's transactions
    issues at most one contract read: the enumeration of the user's handles
    when the bridge contract is loaded, nothing when it is not; no handle
    is read.  The handles the contract lists are returned as they are (an
    absent list as the empty one); when the read fails, or there is no
    contract, the result is the empty list; [loadUserTransactions] stores
    that result in place of the list it held. *)
Theorem user_transactions_one_read {E : Ethers} (w : Wallet)
    (bridgeContract : option BridgeCore) (st : Bridge.State) (acct : string) :
  account w = Some acct ->
  JS.truthyStr acct = true ->
  let reads :=
    match bridgeContract with
    | Some _ => [EGetUserTransactions acct]
    | None => []
    end in
  let handles :=
    match bridgeContract with
    | Some bridge =>
        match bc_getUserTransactions bridge acct with
        | inr (Some l) => l
        | _ => []
        end
    | None => []
    end in
  UseBridgeContract.getUserTransactions w bridgeContract (account w)
  = (reads, inr handles) /\
  Bridge.loadUserTransactions w bridgeContract st
  = (Bridge.setUserTransactions handles st, reads).
Proof.
  intros Hacct Ht reads handles.
  assert (H1 : UseBridgeContract.getUserTransactions w bridgeContract (account w)
               = (reads, inr handles)).
  { unfold UseBridgeContract.getUserTransactions, JS.orElse, reads, handles.
    destruct bridgeContract as [bridge|]; [|reflexivity].
    rewrite Hacct; simpl. rewrite Ht; simpl. run_m.
    destruct (bc_getUserTransactions bridge acct) as [e|[l|]];
      rewrite ?Ht; reflexivity. }
  split; [exact H1|].
  unfold Bridge.loadUserTransactions. rewrite H1.
  rewrite Hacct; simpl. now rewrite Ht.
Qed.

Lemma user_transactions_one_read_witness :
  let w := Scenario.wallet 0 in
  let st := Bridge.setUserTransactions ["0x123"]
              (Scenario.page Scenario.nativeToken "1" 56) in
  (UseBridgeContract.getUserTransactions w (Some Scenario.healthy) (account w)
   = ([EGetUserTransactions Scenario.me], inr ["0xabc"; "0xdef"]) /\
   Bridge.loadUserTransactions w (Some Scenario.healthy) st
   = (Bridge.setUserTransactions ["0xabc"; "0xdef"] st,
      [EGetUserTransactions Scenario.me])) /\
  (UseBridgeContract.getUserTransactions w None (account w) = ([], inr []) /\
   Bridge.loadUserTransactions w None st
   = (Bridge.setUserTransactions [] st, [])).
Proof.
  intros w st. split.
  - apply (user_transactions_one_read w (Some Scenario.healthy) st Scenario.me);
      reflexivity.
  - apply (user_transactions_one_read w None st Scenario.me); reflexivity.
Defined.

(** C5, as stated, fails.  The contract lists "0xabc" and "0xdef"; the
    transfer "0xabc" can be read and "0xdef" cannot.  The refresh reads no
    handle: it ends as it does when both can be read, so nothing it leaves
    tells that "0xdef" failed, and no list of failed handles can be read
    off it; the hook's own read of "0xdef" returns normally.  And when the
    enumeration itself fails, the refresh leaves the page with no handle
    at all, as for a user without transactions. *)
Lemma failed_handle_is_not_surfaced :
  let w := Scenario.wallet 0 in
  let st := Scenario.page Scenario.nativeToken "1" 56 in
  let loaded := Bridge.setUserTransactions ["0xabc"; "0xdef"] st in
  (bc_getUserTransactions Scenario2.halfReadable Scenario.me
   = inr (Some ["0xabc"; "0xdef"]) /\
   bc_getTransaction Scenario2.halfReadable "0xabc" = inr Scenario2.released /\
   bc_getTransaction Scenario2.halfReadable "0xdef" = inl Scenario.rpcError) /\
  Bridge.loadUserTransactions w (Some Scenario2.halfReadable) st
  = (loaded, [EGetUserTransactions Scenario.me]) /\
  ~ (exists failed : Bridge.State * list Event -> list string,
       failed (Bridge.loadUserTransactions w (Some Scenario2.halfReadable) st)
       = ["0xdef"] /\
       failed (Bridge.loadUserTransactions w (Some Scenario2.recording) st)
       = []) /\
  JS.isOk (outcome (UseBridgeContract.getTransaction
                      (Some Scenario2.halfReadable) "0xdef")) = true /\
  (bc_getUserTransactions Scenario.unreachable Scenario.me = inl Scenario.rpcError /\
   UseBridgeContract.getUserTransactions w (Some Scenario.unreachable) (account w)
   = ([EGetUserTransactions Scenario.me], inr []) /\
   Bridge.userTransactions
     (fst (Bridge.loadUserTransactions w (Some Scenario.unreachable) loaded)) = []).
Proof.
  intros w st loaded.
  split; [repeat split|]. split; [reflexivity|]. split; [|repeat split].
  intros [failed [Hhalf Hall]].
  assert (Hsame :
    Bridge.loadUserTransactions w (Some Scenario2.halfReadable) st
    = Bridge.loadUserTransactions w (Some Scenario2.recording) st)
    by reflexivity.
  rewrite Hsame in Hhalf. rewrite Hhalf in Hall. discriminate Hall.
Qed.

(* ================================================================== *)
(** ** Fee requirements *)

(** C10. For every user address, when the contract call behind
    [checkFeeRequirements] fails, neither hook raises: each returns
    [hasBalance = false], [hasAllowance = false] and "0" for balance and
    allowance, which is also what the bridge hook returns when the contract
    answers that nothing is met, with zero balance and allowance. *)
Theorem failed_fee_check_reads_unmet (w : Wallet) (bridge : BridgeCore)
    (router : Router) (userAddress : option string) (address : string)
    (e e' : JS.Error) :
  JS.orElse userAddress (account w) = Some address ->
  JS.truthyStr address = true ->
  bc_checkFeeRequirements bridge address = inl e ->
  rt_checkFeeRequirements router address = inl e' ->
  UseBridgeContract.checkFeeRequirements w (Some bridge) userAddress
  = ([ECheckFeeRequirements address],
     inr {| FeeStatus.hasBalance := false; FeeStatus.hasAllowance := false;
            FeeStatus.balance := "0"; FeeStatus.allowance := "0" |}) /\
  UseDexContract.checkFeeRequirements w (Some router) userAddress
  = ([ERouterCheckFeeRequirements address],
     inr {| FeeStatus.hasBalance := false; FeeStatus.hasAllowance := false;
            FeeStatus.balance := "0"; FeeStatus.allowance := "0" |}) /\
  (forall bridge' : BridgeCore,
     bc_checkFeeRequirements bridge' address
     = inr {| req_hasBalance := false; req_hasAllowance := false;
              req_balance := 0; req_allowance := 0 |} ->
     UseBridgeContract.checkFeeRequirements w (Some bridge') userAddress
     = UseBridgeContract.checkFeeRequirements w (Some bridge) userAddress).
Proof.
  intros Ha Ht Hb Hr.
  unfold UseBridgeContract.checkFeeRequirements,
    UseDexContract.checkFeeRequirements.
  rewrite Ha, Ht. run_m. rewrite Hb, Hr.
  repeat split. intros bridge' Hb'. rewrite Hb'. reflexivity.
Qed.

Lemma failed_fee_check_reads_unmet_witness :
  let w := Scenario.wallet 0 in
  UseBridgeContract.checkFeeRequirements w (Some Scenario.unreachable) None
  = ([ECheckFeeRequirements Scenario.me],
     inr {| FeeStatus.hasBalance := false; FeeStatus.hasAllowance := false;
            FeeStatus.balance := "0"; FeeStatus.allowance := "0" |}) /\
  UseDexContract.checkFeeRequirements w
    (Some (Scenario.router (inl Scenario.rpcError))) None
  = ([ERouterCheckFeeRequirements Scenario.me],
     inr {| FeeStatus.hasBalance := false; FeeStatus.hasAllowance := false;
            FeeStatus.balance := "0"; FeeStatus.allowance := "0" |}) /\
  (forall bridge' : BridgeCore,
     bc_checkFeeRequirements bridge' Scenario.me
     = inr {| req_hasBalance := false; req_hasAllowance := false;
              req_balance := 0; req_allowance := 0 |} ->
     UseBridgeContract.checkFeeRequirements w (Some bridge') None
     = UseBridgeContract.checkFeeRequirements w (Some Scenario.unreachable) None).
Proof.
  intros w.
  apply (failed_fee_check_reads_unmet w Scenario.unreachable
           (Scenario.router (inl Scenario.rpcError)) None Scenario.me
           Scenario.rpcError Scenario.rpcError); reflexivity.
Defined.




(* ================================================================== *)
(** ** Rejected requests *)

(** C8 (amended). For every request whose amount is empty, or is read by
    [parseFloat] as a number that is at most 0, [handleBridge] shows one
    alert and returns: nothing is invoked, no call reaches the wallet or a
    contract, and the page is left as it was, so the request can be made
    again.  (The alert asks for a valid amount; for a wallet that is not
    connected it asks to connect.) *)
Theorem invalid_amount_submits_nothing {E : Ethers}
    (getTokensByChain : Z -> list Token.t) (w : Wallet)
    (bridgeContract : option BridgeCore) (st : Bridge.State) :
  Bridge.amount st = "" \/ JS.le0 (JS.parseFloat (Bridge.amount st)) = true ->
  Bridge.handleBridge getTokensByChain w bridgeContract st
  = (st, [EAlert (if isConnected w then Bridge.amountMessage
                  else Bridge.connectMessage)]) /\
  Observe.invocations
    (snd (Bridge.handleBridge getTokensByChain w bridgeContract st)) = [] /\
  forallb (fun e => negb (Observe.isCall e))
    (snd (Bridge.handleBridge getTokensByChain w bridgeContract st)) = true.
Proof.
  intros Hbad.
  assert (H : Bridge.handleBridge getTokensByChain w bridgeContract st
              = (st, [EAlert (if isConnected w then Bridge.amountMessage
                              else Bridge.connectMessage)])).
  { unfold Bridge.handleBridge.
    destruct (isConnected w); simpl; [|reflexivity].
    destruct Hbad as [-> | ->]; simpl; [reflexivity|].
    now rewrite orb_true_r. }
  rewrite H. repeat split.
Qed.

Lemma invalid_amount_submits_nothing_witness :
  let w := Scenario.wallet 0 in
  let st := Scenario.page Scenario.nativeToken "-5" 56 in
  Bridge.handleBridge Scenario.getTokensByChain w (Some Scenario.healthy) st
  = (st, [EAlert (if isConnected w then Bridge.amountMessage
                  else Bridge.connectMessage)]) /\
  Observe.invocations
    (snd (Bridge.handleBridge Scenario.getTokensByChain w (Some Scenario.healthy) st))
  = [] /\
  forallb (fun e => negb (Observe.isCall e))
    (snd (Bridge.handleBridge Scenario.getTokensByChain w (Some Scenario.healthy) st))
  = true.
Proof.
  intros w st.
  apply (invalid_amount_submits_nothing Scenario.getTokensByChain w
           (Some Scenario.healthy) st).
  right. reflexivity.
Defined.

(** C8, as stated, fails for a transfer to the chain it starts from and for
    a malformed destination.  With the wallet on chain 1, chain 1 selected
    as source and as destination and an amount of 1, [handleBridge] invokes
    [lockTokens] and the lock call is issued, bound for chain 1.  With the
    destination "not-an-address", the approval is sent and the lock call is
    made with that destination. *)
Lemma same_chain_transfer_is_submitted :
  let w := Scenario.wallet 0 in
  let st := Scenario.page Scenario.nativeToken "1" 1 in
  let st' := Bridge.setDestinationAddress "not-an-address"
               (Scenario.page Scenario.nativeToken "1" 56) in
  (chainId w = Some (Bridge.toChain st) /\
   Bridge.fromChain st = Bridge.toChain st /\
   Observe.invocations
     (snd (Bridge.handleBridge Scenario.getTokensByChain w (Some Scenario.healthy) st))
   = [Lock] /\
   In (ELockTokens Scenario.nativeToken (10 ^ 18) 1 Scenario.me)
      (snd (Bridge.handleBridge Scenario.getTokensByChain w (Some Scenario.healthy) st))) /\
  (In (EApprove Scenario.nativeToken Scenario.bridgeAddress (10 ^ 18))
      (snd (Bridge.handleBridge Scenario.getTokensByChain w (Some Scenario.healthy) st')) /\
   In (ELockTokens Scenario.nativeToken (10 ^ 18) 56 "not-an-address")
      (snd (Bridge.handleBridge Scenario.getTokensByChain w (Some Scenario.healthy) st'))).
Proof.
  split.
  - split; [reflexivity|]. split; [reflexivity|].
    split; [vm_compute; reflexivity | vm_compute; tauto].
  - split; vm_compute; tauto.
Qed.

(* ================================================================== *)
(** ** Further properties of the hooks and of the page *)

(** X1. [lockTokens] issues a call, other than asking the wallet for the
    signer, only when the bridge contract, a connected account and the
    signer are there and the library could read the amount. *)
Theorem lockTokens_calls_need_everything {E : Ethers} (w : Wallet)
    (bridgeContract : option BridgeCore) (tok amt : string) (tc : Z)
    (ta : option string) (ev : Event) :
  In ev (trace (UseBridgeContract.lockTokens w bridgeContract tok amt tc ta)) ->
  ev <> EGetSigner ->
  exists bridge acct A,
    bridgeContract = Some bridge /\
    account w = Some acct /\ JS.truthyStr acct = true /\
    provider w = Some (inr tt) /\
    parseEther amt = inr A.
Proof.
  unfold UseBridgeContract.lockTokens, UseBridgeContract.getSigner.
  run_m. step_calls; intros Hin Hne; simpl in Hin;
    repeat (destruct Hin as [Hin|Hin]; [subst ev; try congruence|]);
    try contradiction.
  all: destruct u; eexists; eexists; eexists; repeat split; eassumption.
Qed.

(** X2. When [lockTokens] returns a receipt, it is the receipt of the
    lock call: the trace ends with the lock call and the wait for it,
    the amount is the parsed one, and no value-moving call comes before. *)
Theorem lockTokens_success_shape {E : Ethers} (w : Wallet)
    (bridgeContract : option BridgeCore) (tok amt : string) (tc : Z)
    (ta : option string) (r : Receipt) :
  outcome (UseBridgeContract.lockTokens w bridgeContract tok amt tc ta) = inr r ->
  exists bridge A d pre,
    bridgeContract = Some bridge /\
    parseEther amt = inr A /\
    bc_lockTokens bridge tok A tc d = inr (inr r) /\
    trace (UseBridgeContract.lockTokens w bridgeContract tok amt tc ta)
    = (pre ++ [ELockTokens tok A tc d; ESubmitWait])%list /\
    Observe.allowanceReadFirst false pre = true /\
    forallb (fun e => negb (Observe.isTransfer e)) pre = true.
Proof.
  unfold UseBridgeContract.lockTokens, UseBridgeContract.getSigner.
  run_m. intros H.
  step_calls; try discriminate H; subst.
  - exists b, z, (JS.orStr ta s).
    exists [EGetSigner; EGetAddress; EAllowance tok s s0; EApprove tok s0 z; EApproveWait].
    repeat split; assumption.
  - exists b, z, (JS.orStr ta s).
    exists [EGetSigner; EGetAddress; EAllowance tok s s0].
    repeat split; assumption.
Qed.

(** X3. When [lockTokens] sends an approval and the approval is refused,
    or sent and then not confirmed, the lock call is never issued and
    that error is what [lockTokens] raises. *)
Theorem failed_approval_blocks_lock {E : Ethers} (w : Wallet)
    (bridgeContract : option BridgeCore) (tok amt : string) (tc : Z)
    (ta : option string) (spender : string) (A : Z) (e : JS.Error) :
  In (EApprove tok spender A)
     (trace (UseBridgeContract.lockTokens w bridgeContract tok amt tc ta)) ->
  erc_approve (tokenAt w tok) spender A = inl e \/
  erc_approve (tokenAt w tok) spender A = inr (inl e) ->
  outcome (UseBridgeContract.lockTokens w bridgeContract tok amt tc ta) = inl e /\
  forallb (fun ev => negb (Observe.isTransfer ev))
    (trace (UseBridgeContract.lockTokens w bridgeContract tok amt tc ta)) = true.
Proof.
  unfold UseBridgeContract.lockTokens, UseBridgeContract.getSigner.
  run_m.
  step_calls; intros Hin Hfail; simpl in Hin;
    repeat (destruct Hin as [Hin|Hin]; [try discriminate Hin|]);
    try contradiction.
  all: injection Hin as -> ->.
  all: destruct Hfail as [Hf|Hf]; rewrite Hf in *; try discriminate.
  all: match goal with
       | H : inl _ = inl _ |- _ => injection H as <-
       | H : inr (inl _) = inr (inl _) |- _ => injection H as <-
       end; split; reflexivity.
Qed.

(** X4. The lock and burn calls are made for the token and target chain
    asked for, with the parsed amount, and to a destination that is
    never empty: the target address when one was given, the connected
    account otherwise. *)
Theorem transfer_destination_is_set {E : Ethers} (w : Wallet)
    (bridgeContract : option BridgeCore) (tok amt : string) (tc : Z)
    (ta : option string) (tok' : string) (A tc' : Z) (d : string) :
  In (ELockTokens tok' A tc' d)
     (trace (UseBridgeContract.lockTokens w bridgeContract tok amt tc ta)) \/
  In (EBurnAndBridge tok' A tc' d)
     (trace (UseBridgeContract.burnAndBridge w bridgeContract tok amt tc ta)) ->
  tok' = tok /\ tc' = tc /\ parseEther amt = inr A /\
  JS.truthyStr d = true /\
  (JS.truthy ta = true -> ta = Some d) /\
  (JS.truthy ta = false -> account w = Some d).
Proof.
  unfold UseBridgeContract.lockTokens, UseBridgeContract.burnAndBridge,
    UseBridgeContract.getSigner.
  run_m.
  step_calls; intros [Hin|Hin]; simpl in Hin;
    repeat (destruct Hin as [Hin|Hin]; [try discriminate Hin|]);
    try contradiction.
  all: injection Hin as <- <- <- <-.
  all: unfold JS.orStr, JS.truthy; destruct ta as [a|];
    [destruct (JS.truthyStr a) eqn:Ha|];
    repeat split; try assumption; try congruence; intros; try discriminate;
    try congruence.
Qed.

(** X5. When [burnAndBridge] returns a receipt, its trace is the burn
    call and the wait for it, and the receipt is that of the burn call;
    when the library cannot read the amount, nothing is issued. *)
Theorem burnAndBridge_success_shape {E : Ethers} (w : Wallet)
    (bridgeContract : option BridgeCore) (tok amt : string) (tc : Z)
    (ta : option string) :
  (forall r : Receipt,
     outcome (UseBridgeContract.burnAndBridge w bridgeContract tok amt tc ta) = inr r ->
     exists bridge A d,
       bridgeContract = Some bridge /\
       parseEther amt = inr A /\
       bc_burnAndBridge bridge tok A tc d = inr (inr r) /\
       trace (UseBridgeContract.burnAndBridge w bridgeContract tok amt tc ta)
       = [EBurnAndBridge tok A tc d; ESubmitWait]) /\
  (forall e : JS.Error,
     parseEther amt = inl e ->
     trace (UseBridgeContract.burnAndBridge w bridgeContract tok amt tc ta) = []).
Proof.
  unfold UseBridgeContract.burnAndBridge. run_m.
  split.
  - intros r. step_calls; intros H; try discriminate H; subst.
    eexists; eexists; eexists; repeat split; eassumption.
  - intros e He. rewrite He. step_calls; reflexivity.
Qed.

(** X6. [getTransaction] never raises, whatever the contract answers and
    whatever the library does with the amounts; it issues at most the
    one read, and for a handle that is not empty what it returns carries
    a handle that is not empty. *)
Theorem getTransaction_never_raises {E : Ethers}
    (bridgeContract : option BridgeCore) (txId : string) :
  exists tx : BridgeTransaction.t,
    outcome (UseBridgeContract.getTransaction bridgeContract txId) = inr tx /\
    (trace (UseBridgeContract.getTransaction bridgeContract txId) = [] \/
     trace (UseBridgeContract.getTransaction bridgeContract txId)
     = [EGetTransaction txId]) /\
    (JS.truthyStr txId = true ->
     JS.truthyStr (BridgeTransaction.txId tx) = true).
Proof.
  unfold UseBridgeContract.getTransaction, UseBridgeContract.formatOrZero.
  run_m.
  step_calls; eexists; (split; [reflexivity|]); (split; [auto|]); simpl;
    try (intros H; exact H).
  all: unfold JS.orStr; intros H;
    destruct (raw_txId r) as [i|]; [destruct (JS.truthyStr i) eqn:Hi|];
    assumption.
Qed.

(** X7. With version 6 of the library, when the contract read succeeds
    and the amounts are in the range the library prints,
    [getTransaction] reports the status the contract sent (0 when it
    sent none), the contract's handle, user, token and target address
    (the requested handle and empty strings when absent), and the
    amounts as the library formats them, "0" for an absent or zero
    amount. *)
Theorem getTransaction_reports_ledger (bridge : BridgeCore) (txId : string)
    (tx : RawTransaction) :
  bc_getTransaction bridge txId = inr tx ->
  (forall a, raw_amount tx = Some a -> EthersV6.inRange a = true) ->
  (forall a, raw_fee tx = Some a -> EthersV6.inRange a = true) ->
  exists r : BridgeTransaction.t,
    UseBridgeContract.getTransaction (E := EthersV6.ethers) (Some bridge) txId
    = ([EGetTransaction txId], inr r) /\
    BridgeTransaction.status r = match raw_status tx with Some z => z | None => 0 end /\
    BridgeTransaction.txId r = JS.orStr (raw_txId tx) txId /\
    BridgeTransaction.user r = JS.orStr (raw_user tx) "" /\
    BridgeTransaction.token r = JS.orStr (raw_token tx) "" /\
    BridgeTransaction.targetAddress r = JS.orStr (raw_targetAddress tx) "" /\
    (raw_amount tx = None \/ raw_amount tx = Some 0 ->
     BridgeTransaction.amount r = "0") /\
    (forall a, raw_amount tx = Some a -> a <> 0 ->
     EthersV6.format a = inr (BridgeTransaction.amount r)) /\
    (forall a, raw_fee tx = Some a -> a <> 0 ->
     EthersV6.format a = inr (BridgeTransaction.fee r)).
Proof.
  intros Hread Ha Hf.
  assert (Hfmt : forall x : option Z,
            (forall a, x = Some a -> EthersV6.inRange a = true) ->
            exists s, UseBridgeContract.formatOrZero (E := EthersV6.ethers) x = ([], inr s) /\
                      (x = None \/ x = Some 0 -> s = "0") /\
                      (forall a, x = Some a -> a <> 0 -> EthersV6.format a = inr s)).
  { intros [a|] Hx; simpl.
    - destruct (Z.eqb_spec a 0) as [->|Hne].
      + exists "0". repeat split. intros a [= <-]. congruence.
      + destruct (format_inRange a (Hx a eq_refl)) as [s Hs].
        exists s. unfold lift; simpl. rewrite Hs. repeat split.
        * intros [H|H]; congruence.
        * intros a' [= <-] _. exact Hs.
    - exists "0". repeat split. intros a H; discriminate H. }
  destruct (Hfmt (raw_amount tx) Ha) as [sa [Hsa [Hsa0 Hsa1]]].
  destruct (Hfmt (raw_fee tx) Hf) as [sf [Hsf [_ Hsf1]]].
  unfold UseBridgeContract.getTransaction. run_m.
  rewrite Hread. rewrite Hsa, Hsf. simpl.
  eexists. split; [reflexivity|]. simpl.
  repeat split; auto.
Qed.

(** An amount the library cannot read is quoted as "0". *)
Lemma estimate_unparsable {E : Ethers} (bridge : BridgeCore) (tok amt : string)
    (e : JS.Error) :
  parseEther amt = inl e ->
  UseBridgeContract.estimateBridgeFee (Some bridge) tok amt
  = ([ESupportedTokens tok], inr "0").
Proof.
  intros He. unfold UseBridgeContract.estimateBridgeFee. run_m.
  rewrite He. step_calls; reflexivity.
Qed.

(** X8. With a bridge contract, [estimateBridgeFee] never raises and
    issues exactly one read; for an amount the library cannot read it
    returns "0". *)
Theorem estimateBridgeFee_never_raises {E : Ethers} (bridge : BridgeCore)
    (tok amt : string) :
  (exists s : string,
     outcome (UseBridgeContract.estimateBridgeFee (Some bridge) tok amt) = inr s) /\
  trace (UseBridgeContract.estimateBridgeFee (Some bridge) tok amt)
  = [ESupportedTokens tok] /\
  (forall e : JS.Error,
     parseEther amt = inl e ->
     outcome (UseBridgeContract.estimateBridgeFee (Some bridge) tok amt) = inr "0").
Proof.
  unfold UseBridgeContract.estimateBridgeFee. run_m.
  split; [|split].
  - step_calls; eauto.
  - step_calls; reflexivity.
  - intros e He. rewrite He. step_calls; reflexivity.
Qed.

(** X9. [getUserTransactions] never raises and issues at most one read,
    for an address that is not empty: the address given when there is
    one, the connected account otherwise. *)
Theorem getUserTransactions_reads_one_address {E : Ethers} (w : Wallet)
    (bridgeContract : option BridgeCore) (userAddress : option string) :
  (exists l : list string,
     outcome (UseBridgeContract.getUserTransactions w bridgeContract userAddress)
     = inr l) /\
  (trace (UseBridgeContract.getUserTransactions w bridgeContract userAddress) = [] \/
   exists a : string,
     trace (UseBridgeContract.getUserTransactions w bridgeContract userAddress)
     = [EGetUserTransactions a] /\
     JS.truthyStr a = true /\
     (JS.truthy userAddress = true -> userAddress = Some a) /\
     (JS.truthy userAddress = false -> account w = Some a)).
Proof.
  unfold UseBridgeContract.getUserTransactions, JS.orElse. run_m.
  split.
  - step_calls; eauto.
  - destruct bridgeContract as [b|]; [|now left].
    destruct (JS.truthy userAddress) eqn:Hu.
    + destruct userAddress as [a|]; [|discriminate]. simpl in Hu. rewrite Hu.
      right. exists a. step_calls; repeat split; auto; discriminate.
    + destruct (account w) as [a|]; [|now left].
      destruct (JS.truthyStr a) eqn:Ha; [|now left].
      right. exists a. step_calls; repeat split; auto; discriminate.
Qed.

(** X10. The bridge hook's [checkFeeRequirements] raises exactly when
    there is no bridge contract or neither a given address nor a
    connected account. *)
Theorem checkFeeRequirements_raises_iff (w : Wallet)
    (bridgeContract : option BridgeCore) (userAddress : option string) :
  JS.isOk (outcome (UseBridgeContract.checkFeeRequirements w bridgeContract userAddress))
  = false <->
  bridgeContract = None \/ JS.truthy (JS.orElse userAddress (account w)) = false.
Proof.
  unfold UseBridgeContract.checkFeeRequirements. run_m.
  destruct bridgeContract as [b|]; simpl; [|tauto].
  destruct (JS.orElse userAddress (account w)) as [a|]; simpl; [|tauto].
  destruct (JS.truthyStr a); simpl; [|tauto].
  destruct (bc_checkFeeRequirements b a); simpl;
    split; intros H; try discriminate H; destruct H; discriminate.
Qed.



Lemma alerts_app (t1 t2 : list Event) :
  Shown.alerts (t1 ++ t2) = (Shown.alerts t1 ++ Shown.alerts t2)%list.
Proof.
  induction t1 as [|e t1 IH]; simpl; [reflexivity|].
  destruct e; simpl; now rewrite ?IH.
Qed.

Section AlertFacts.
Context {E : Ethers}.
Variable getTokensByChain : Z -> list Token.t.
Variable w : Wallet.
Variable bridgeContract : option BridgeCore.

Lemma submit_shows_nothing kind tok amt tc dest :
  Shown.alerts (trace (Bridge.submit w bridgeContract kind tok amt tc dest)) = [].
Proof.
  destruct kind; unfold Bridge.submit, UseBridgeContract.lockTokens,
    UseBridgeContract.burnAndBridge, UseBridgeContract.getSigner.
  all: run_m; step_calls; reflexivity.
Qed.

Lemma loadUserTransactions_shows_nothing st :
  Shown.alerts (snd (Bridge.loadUserTransactions w bridgeContract st)) = [].
Proof.
  unfold Bridge.loadUserTransactions, UseBridgeContract.getUserTransactions.
  run_m. step_calls; reflexivity.
Qed.

Lemma loadUserTransactions_keeps_form st :
  let st' := fst (Bridge.loadUserTransactions w bridgeContract st) in
  Bridge.amount st' = Bridge.amount st /\
  Bridge.destinationAddress st' = Bridge.destinationAddress st /\
  Bridge.selectedToken st' = Bridge.selectedToken st /\
  Bridge.fromChain st' = Bridge.fromChain st /\
  Bridge.toChain st' = Bridge.toChain st /\
  Bridge.bridgeFee st' = Bridge.bridgeFee st /\
  Bridge.feeWarning st' = Bridge.feeWarning st /\
  Bridge.isBridging st' = Bridge.isBridging st.
Proof.
  unfold Bridge.loadUserTransactions.
  destruct (negb (JS.truthy (account w))); [simpl; tauto|].
  destruct (UseBridgeContract.getUserTransactions w bridgeContract (account w))
    as [t [e|l]]; simpl; tauto.
Qed.

End AlertFacts.

(** X11. Past its guards, [handleBridge] ends with [isBridging] false
    and leaves token, chains, fee and fee warning alone; it shows
    exactly one alert: either the failure alert, and then amount,
    destination and history are as before, or the success alert, and
    then amount and destination are cleared. *)
Theorem handleBridge_outcomes {E : Ethers}
    (getTokensByChain : Z -> list Token.t) (w : Wallet)
    (bridgeContract : option BridgeCore) (st : Bridge.State) :
  isConnected w = true ->
  JS.truthyStr (Bridge.amount st) = true ->
  JS.le0 (JS.parseFloat (Bridge.amount st)) = false ->
  JS.truthyStr (Bridge.selectedToken st) = true ->
  let st' := fst (Bridge.handleBridge getTokensByChain w bridgeContract st) in
  let t := snd (Bridge.handleBridge getTokensByChain w bridgeContract st) in
  Bridge.isBridging st' = false /\
  Bridge.selectedToken st' = Bridge.selectedToken st /\
  Bridge.fromChain st' = Bridge.fromChain st /\
  Bridge.toChain st' = Bridge.toChain st /\
  Bridge.bridgeFee st' = Bridge.bridgeFee st /\
  Bridge.feeWarning st' = Bridge.feeWarning st /\
  ((Shown.alerts t = [Bridge.failedMessage] /\
    Bridge.amount st' = Bridge.amount st /\
    Bridge.destinationAddress st' = Bridge.destinationAddress st /\
    Bridge.userTransactions st' = Bridge.userTransactions st) \/
   (Shown.alerts t = [Bridge.initiatedMessage] /\
    Bridge.amount st' = "" /\
    Bridge.destinationAddress st' = "")).
Proof.
  intros Hc Ha Hp Hs st' t. subst st' t.
  unfold Bridge.handleBridge. rewrite Hc, Ha, Hp, Hs; simpl.
  set (k := Bridge.transferKind w _). set (d := JS.orElse _ _).
  pose proof (submit_shows_nothing w bridgeContract k (Bridge.selectedToken st)
                (Bridge.amount st) (Bridge.toChain st) d) as Hsub.
  destruct (Bridge.submit w bridgeContract k _ _ _ d) as [t [e|r]];
    unfold trace in Hsub; simpl in Hsub.
  - simpl. rewrite alerts_app, Hsub. repeat split. left. repeat split.
  - set (st2 := Bridge.setDestinationAddress "" _).
    pose proof (loadUserTransactions_shows_nothing w bridgeContract st2) as HL.
    pose proof (loadUserTransactions_keeps_form w bridgeContract st2) as HK.
    destruct (Bridge.loadUserTransactions w bridgeContract st2) as [st3 t3].
    simpl in *. destruct HK as [K1 [K2 [K3 [K4 [K5 [K6 [K7 K8]]]]]]].
    rewrite alerts_app, Hsub. simpl. rewrite HL.
    repeat split; try assumption. right. repeat split; assumption.
Qed.

(** X12. A click on the Bridge button invokes a submit function only if
    the wallet is connected, an amount that [parseFloat] does not read
    as 0 or less and a token are entered, no transfer is in progress and
    no fee warning is shown. *)
Theorem click_submits_only_when_ready {E : Ethers}
    (getTokensByChain : Z -> list Token.t) (w : Wallet)
    (bridgeContract : option BridgeCore) (st : Bridge.State) :
  Observe.invocations
    (snd (Bridge.clickBridge getTokensByChain w bridgeContract st)) <> [] ->
  isConnected w = true /\
  Bridge.amount st <> "" /\
  JS.le0 (JS.parseFloat (Bridge.amount st)) = false /\
  Bridge.selectedToken st <> "" /\
  Bridge.isBridging st = false /\
  Bridge.feeWarning st = "".
Proof.
  unfold Bridge.clickBridge, Bridge.bridgeDisabled, Bridge.handleBridge, JS.truthyStr.
  destruct (String.eqb_spec (Bridge.amount st) "") as [Ha|Ha]; simpl;
    [intros H; now elim H|].
  destruct (String.eqb_spec (Bridge.selectedToken st) "") as [Hs|Hs]; simpl;
    [intros H; now elim H|].
  destruct (isConnected w); simpl; [|intros H; now elim H].
  destruct (Bridge.isBridging st); simpl; [intros H; now elim H|].
  destruct (String.eqb_spec (Bridge.feeWarning st) "") as [Hw|Hw]; simpl;
    [|intros H; now elim H].
  destruct (JS.le0 (JS.parseFloat (Bridge.amount st))); simpl;
    [intros H; now elim H|].
  intros _. repeat split; assumption.
Qed.

(** X13. Past the guards, when the selected address is not among the
    tokens listed for the wallet's chain, [handleBridge] runs
    [burnAndBridge] on the selected address, the amount, the target chain
    and the destination, then the alert and the refresh; the one exception
    is a wallet whose chain is [undefined], for which no token is listed
    and [undefined === undefined] sends it to [lockTokens] instead. *)
Theorem unlisted_token_path {E : Ethers}
    (getTokensByChain : Z -> list Token.t) (w : Wallet)
    (bridgeContract : option BridgeCore) (st : Bridge.State) :
  isConnected w = true ->
  JS.truthyStr (Bridge.amount st) = true ->
  JS.le0 (JS.parseFloat (Bridge.amount st)) = false ->
  JS.truthyStr (Bridge.selectedToken st) = true ->
  (forall t, In t (Bridge.availableTokens getTokensByChain w) ->
             Token.address t <> Bridge.selectedToken st) ->
  let destination :=
    JS.orElse (Some (Bridge.destinationAddress st)) (account w) in
  let lock :=
    UseBridgeContract.lockTokens w bridgeContract (Bridge.selectedToken st)
      (Bridge.amount st) (Bridge.toChain st) destination in
  let burn :=
    UseBridgeContract.burnAndBridge w bridgeContract (Bridge.selectedToken st)
      (Bridge.amount st) (Bridge.toChain st) destination in
  let afterwards (r : JS.Res Receipt) :=
    match r with
    | inl _ => [EAlert Bridge.failedMessage]
    | inr _ =>
        EAlert Bridge.initiatedMessage
        :: snd (Bridge.loadUserTransactions w bridgeContract
                  (Bridge.setDestinationAddress ""
                     (Bridge.setAmount "" (Bridge.setIsBridging true st))))
    end in
  let t := snd (Bridge.handleBridge getTokensByChain w bridgeContract st) in
  (chainId w <> None \/ chainIdUndefined w = false ->
   t = (EHookBurnAndBridge (Bridge.selectedToken st) (Bridge.amount st)
          (Bridge.toChain st) destination
        :: trace burn ++ afterwards (outcome burn))%list /\
   forall a b c d, ~ In (ELockTokens a b c d) t) /\
  (chainId w = None -> chainIdUndefined w = true ->
   t = (EHookLockTokens (Bridge.selectedToken st) (Bridge.amount st)
          (Bridge.toChain st) destination
        :: trace lock ++ afterwards (outcome lock))%list /\
   forall a b c d, ~ In (EBurnAndBridge a b c d) t).
Proof.
  intros Hc Ha Hp Hs Hno destination lock burn afterwards t.
  assert (Hfind : Bridge.findToken getTokensByChain w (Bridge.selectedToken st)
                  = None).
  { unfold Bridge.findToken.
    destruct (find _ (Bridge.availableTokens getTokensByChain w)) as [x|] eqn:Hf;
      [|reflexivity].
    apply find_some in Hf as [Hin Heq]. apply String.eqb_eq in Heq.
    elim (Hno x Hin Heq). }
  assert (Hrun := handleBridge_runs getTokensByChain w bridgeContract st
                    Hc Ha Hp Hs).
  cbv zeta in Hrun. rewrite Hfind in Hrun. fold destination in Hrun.
  assert (Hquiet : forall r e, In e (afterwards r) -> Observe.isTransfer e = false).
  { intros [e0|r] e Hin; simpl in Hin.
    - destruct Hin as [<-|[]]. reflexivity.
    - destruct Hin as [<-|Hin]; [reflexivity|].
      now apply loadUserTransactions_moves_nothing in Hin. }
  split.
  - intros Hcase.
    assert (Hk : Bridge.transferKind w None = BurnAndMint).
    { unfold Bridge.transferKind, Bridge.isNativeToken.
      destruct (chainId w); [reflexivity|].
      destruct Hcase as [Hcase| ->]; [now elim Hcase|reflexivity]. }
    rewrite Hk in Hrun.
    assert (Ht : t = (EHookBurnAndBridge (Bridge.selectedToken st) (Bridge.amount st)
                        (Bridge.toChain st) destination
                      :: trace burn ++ afterwards (outcome burn))%list).
    { subst t. rewrite Hrun. unfold Bridge.submit. fold burn.
      destruct burn as [tb rb]. run_m. destruct rb; reflexivity. }
    split; [exact Ht|].
    intros a b c d Hin. rewrite Ht in Hin.
    destruct Hin as [Hin|Hin]; [discriminate Hin|].
    apply in_app_or in Hin as [Hin|Hin].
    + now apply burnAndBridge_never_locks in Hin.
    + apply Hquiet in Hin. discriminate Hin.
  - intros Hnone Hundef.
    assert (Hk : Bridge.transferKind w None = Lock).
    { unfold Bridge.transferKind, Bridge.isNativeToken.
      now rewrite Hnone, Hundef. }
    rewrite Hk in Hrun.
    assert (Ht : t = (EHookLockTokens (Bridge.selectedToken st) (Bridge.amount st)
                        (Bridge.toChain st) destination
                      :: trace lock ++ afterwards (outcome lock))%list).
    { subst t. rewrite Hrun. unfold Bridge.submit. fold lock.
      destruct lock as [tl rl]. run_m. destruct rl; reflexivity. }
    split; [exact Ht|].
    intros a b c d Hin. rewrite Ht in Hin.
    destruct Hin as [Hin|Hin]; [discriminate Hin|].
    apply in_app_or in Hin as [Hin|Hin].
    + now apply lockTokens_never_burns in Hin.
    + apply Hquiet in Hin. discriminate Hin.
Qed.

(** X14. The estimated time does not depend on the direction of the
    transfer; it is "2-5 minutes" exactly when one of the two chains is
    43114, and "1-3 minutes" exactly when neither is and one of them is
    250. *)
Theorem estimatedTime_symmetric (st st' : Bridge.State) :
  Bridge.fromChain st' = Bridge.toChain st ->
  Bridge.toChain st' = Bridge.fromChain st ->
  Bridge.estimatedTime st' = Bridge.estimatedTime st /\
  (Bridge.estimatedTime st = "2-5 minutes" <->
   Bridge.fromChain st = 43114 \/ Bridge.toChain st = 43114) /\
  (Bridge.estimatedTime st = "1-3 minutes" <->
   Bridge.fromChain st <> 43114 /\ Bridge.toChain st <> 43114 /\
   (Bridge.fromChain st = 250 \/ Bridge.toChain st = 250)).
Proof.
  intros H1 H2. unfold Bridge.estimatedTime. rewrite H1, H2.
  rewrite (orb_comm (Bridge.toChain st =? 43114)),
          (orb_comm (Bridge.toChain st =? 250)).
  split; [reflexivity|].
  destruct (Z.eqb_spec (Bridge.fromChain st) 43114),
           (Z.eqb_spec (Bridge.toChain st) 43114),
           (Z.eqb_spec (Bridge.fromChain st) 250),
           (Z.eqb_spec (Bridge.toChain st) 250); simpl;
    (split; split; intros H; try discriminate H; try tauto; try lia).
Qed.

(** X15. For a connected account and no bridge contract,
    [checkUSDTFeeRequirements] issues no call, shows that the fee
    requirements could not be verified, and the Bridge button is
    disabled. *)
Theorem unverifiable_fee_check_blocks {E : Ethers} (w : Wallet)
    (st : Bridge.State) :
  JS.truthy (account w) = true ->
  Bridge.checkUSDTFeeRequirements w None st
  = (Bridge.setFeeWarning Bridge.cannotVerifyMessage st, []) /\
  Bridge.bridgeDisabled w
    (fst (Bridge.checkUSDTFeeRequirements w None st)) = true.
Proof.
  intros Ha. unfold Bridge.checkUSDTFeeRequirements. rewrite Ha; simpl.
  split; [reflexivity|].
  unfold Bridge.bridgeDisabled; simpl. apply orb_true_r.
Qed.

(** X16. With a token and an amount entered, [estimateFee] shows a token
    fee of "0" when there is no bridge contract or the library cannot
    read the amount, and changes nothing else on the page. *)
Theorem estimateFee_shows_zero_on_failure {E : Ethers}
    (bridgeContract : option BridgeCore) (st : Bridge.State) :
  JS.truthyStr (Bridge.selectedToken st) = true ->
  JS.truthyStr (Bridge.amount st) = true ->
  bridgeContract = None \/ (exists e, parseEther (Bridge.amount st) = inl e) ->
  fst (Bridge.estimateFee bridgeContract st) = Bridge.setBridgeFee "0" st.
Proof.
  intros Hs Ha H. unfold Bridge.estimateFee. rewrite Hs, Ha; simpl.
  destruct H as [-> | [e He]]; [reflexivity|].
  destruct bridgeContract as [b|]; [|reflexivity].
  now rewrite (estimate_unparsable b _ _ e He).
Qed.

Ltac run_tr :=
  unfold Tr.bind, Tr.tryCatch, Tr.call, Tr.wait, Tr.lift, Tr.ret, Tr.throw,
    Tr.trace, Tr.outcome in *; simpl in *.

(** The loop of [getAllPairs] asks for every index and keeps what it gets. *)
Lemma collectPairs_spec (f : Factory) (indices : list nat) (pairs : list string) :
  DexHook.collectPairs f indices pairs
  = (map (fun i => OpCall OnFactory "allPairs" [ANum (Z.of_nat i)]) indices,
     inr (pairs ++ flat_map (fun i => match f_allPairs f (Z.of_nat i) with
                                      | inr a => [a]
                                      | inl _ => []
                                      end) indices)%list).
Proof.
  revert pairs. induction indices as [|i rest IH]; intros pairs; simpl.
  - now rewrite app_nil_r.
  - unfold Tr.bind, Tr.tryCatch, Tr.call, Tr.ret; simpl.
    destruct (f_allPairs f (Z.of_nat i)) as [e|a]; simpl; rewrite IH; simpl.
    + reflexivity.
    + now rewrite <- app_assoc.
Qed.

(** X17. [getAllPairs] asks the factory for every index below the length
    it reports and returns, in index order, the pairs it could read: an
    index that fails is skipped and the others are kept.  When the
    length cannot be read the result is empty. *)
Theorem getAllPairs_keeps_readable_pairs (f : Factory) :
  let asked n := OpCall OnFactory "allPairsLength" []
                 :: map (fun i => OpCall OnFactory "allPairs" [ANum (Z.of_nat i)])
                      (seq 0 (Z.to_nat n)) in
  let kept n := flat_map (fun i => match f_allPairs f (Z.of_nat i) with
                                   | inr a => [a]
                                   | inl _ => []
                                   end) (seq 0 (Z.to_nat n)) in
  (forall n : Z, f_allPairsLength f = inr n ->
     DexHook.getAllPairs (Some f) = (asked n, inr (kept n))) /\
  (forall e : JS.Error, f_allPairsLength f = inl e ->
     DexHook.getAllPairs (Some f)
     = ([OpCall OnFactory "allPairsLength" []], inr [])).
Proof.
  intros asked kept. unfold DexHook.getAllPairs. split.
  - intros n Hn. run_tr. rewrite Hn.
    destruct (Z.ltb_spec 0 n) as [Hpos|Hle].
    + rewrite collectPairs_spec. reflexivity.
    + subst asked kept; simpl.
      replace (Z.to_nat n) with 0%nat by lia. reflexivity.
  - intros e He. run_tr. rewrite He. reflexivity.
Qed.

(** X18. With a provider, [getPairReserves] never raises.  When only the
    reserves cannot be read, it reports zero reserves next to the pair's
    real tokens and total supply; when a token or the total supply
    cannot be read, it reports the all-empty record. *)
Theorem getPairReserves_masks_reserves {E : Ethers} (w : Wallet)
    (pairAt : string -> PairContract) (pairAddress : string)
    (signer : JS.Res unit) :
  provider w = Some signer ->
  (exists r : PairReserves.t,
     Tr.outcome (DexHook.getPairReserves w pairAt pairAddress) = inr r) /\
  (forall e t0 t1 supply zero s,
     signer = inr tt ->
     p_getReserves (pairAt pairAddress) = inl e ->
     p_token0 (pairAt pairAddress) = inr t0 ->
     p_token1 (pairAt pairAddress) = inr t1 ->
     p_totalSupply (pairAt pairAddress) = inr supply ->
     formatEther 0 = inr zero ->
     formatEther supply = inr s ->
     Tr.outcome (DexHook.getPairReserves w pairAt pairAddress)
     = inr {| PairReserves.reserve0 := zero;
              PairReserves.reserve1 := zero;
              PairReserves.token0 := t0;
              PairReserves.token1 := t1;
              PairReserves.totalSupply := s |}) /\
  (forall e,
     p_token0 (pairAt pairAddress) = inl e \/
     p_token1 (pairAt pairAddress) = inl e \/
     p_totalSupply (pairAt pairAddress) = inl e ->
     Tr.outcome (DexHook.getPairReserves w pairAt pairAddress)
     = inr DexHook.noReserves).
Proof.
  intros Hp. unfold DexHook.getPairReserves. rewrite Hp. run_tr.
  split; [|split].
  - step_calls; eauto.
  - intros e t0 t1 supply zero s -> Hr H0 H1 Hs Hz Hf.
    rewrite Hr, H0, H1, Hs; simpl. rewrite Hz; simpl. rewrite Hf. reflexivity.
  - intros e [H|[H|H]]; rewrite H; step_calls; reflexivity.
Qed.

Lemma formatAll_length {E : Ethers} (amounts : list Z) (l : list string) :
  DexHook.formatAll amounts = inr l -> List.length l = List.length amounts.
Proof.
  revert l. induction amounts as [|a rest IH]; intros l; simpl.
  - intros [= <-]. reflexivity.
  - destruct (formatEther a); [discriminate|].
    destruct (DexHook.formatAll rest); [discriminate|].
    intros [= <-]. simpl. f_equal. now apply IH.
Qed.

(** X19. With a router, [getAmountsOut] never raises: it returns either
    one formatted amount per amount of the router's quote, or the pair
    of the input amount, as given, and "0"; the latter whenever the
    amount cannot be read or the quote fails. *)
Theorem getAmountsOut_quote_or_zero {E : Ethers} (r : SwapRouter)
    (amountIn : string) (path : list string) :
  (exists l : list string,
     Tr.outcome (DexHook.getAmountsOut (Some r) amountIn path) = inr l /\
     (l = [amountIn; "0"] \/
      exists A amounts,
        parseEther amountIn = inr A /\
        sr_getAmountsOut r A path = inr amounts /\
        DexHook.formatAll amounts = inr l /\
        List.length l = List.length amounts)) /\
  (forall e : JS.Error,
     parseEther amountIn = inl e ->
     DexHook.getAmountsOut (Some r) amountIn path = ([], inr [amountIn; "0"])) /\
  (forall (A : Z) (e : JS.Error),
     parseEther amountIn = inr A ->
     sr_getAmountsOut r A path = inl e ->
     Tr.outcome (DexHook.getAmountsOut (Some r) amountIn path)
     = inr [amountIn; "0"]).
Proof.
  unfold DexHook.getAmountsOut. run_tr.
  split; [|split].
  - destruct (parseEther amountIn) as [e|A] eqn:Hp; simpl; [eauto|].
    destruct (sr_getAmountsOut r A path) as [e|amounts] eqn:Hq; simpl; [eauto|].
    destruct (DexHook.formatAll amounts) as [e|l] eqn:Hf; simpl; [eauto|].
    exists l. split; [reflexivity|]. right. exists A, amounts.
    repeat split; try assumption. now apply formatAll_length.
  - intros e He. rewrite He. reflexivity.
  - intros A e Hp Hq. rewrite Hp; simpl. rewrite Hq. reflexivity.
Qed.

(** X20. [getTokenBalance] never raises; without a provider or an
    address it returns "0" without asking the token, and it returns "0"
    when the balance read fails. *)
Theorem getTokenBalance_never_raises {E : Ethers} (w : Wallet)
    (balanceOf : string -> string -> JS.Res Z) (tokenAddress : string)
    (userAddress : option string) :
  (exists s : string,
     Tr.outcome (DexHook.getTokenBalance w balanceOf tokenAddress userAddress)
     = inr s) /\
  (provider w = None \/ JS.truthy (JS.orElse userAddress (account w)) = false ->
   Tr.outcome (DexHook.getTokenBalance w balanceOf tokenAddress userAddress)
   = inr "0" /\
   forall o a, ~ In (OpCall (OnToken o) "balanceOf" a)
                 (Tr.trace (DexHook.getTokenBalance w balanceOf tokenAddress userAddress))) /\
  (forall address e,
     JS.orElse userAddress (account w) = Some address ->
     balanceOf tokenAddress address = inl e ->
     Tr.outcome (DexHook.getTokenBalance w balanceOf tokenAddress userAddress)
     = inr "0").
Proof.
  unfold DexHook.getTokenBalance, DexHook.getTokenContract. run_tr.
  split; [|split].
  - step_calls; eauto.
  - intros [Hp|Ha].
    + rewrite Hp; simpl. split; [reflexivity|]. intros o a [].
    + destruct (JS.orElse userAddress (account w)) as [address|]; simpl in Ha.
      * rewrite Ha. step_calls; (split; [reflexivity|]);
          intros o a Hin; simpl in Hin;
          repeat (destruct Hin as [Hin|Hin]; [discriminate Hin|]); contradiction.
      * step_calls; (split; [reflexivity|]);
          intros o a Hin; simpl in Hin;
          repeat (destruct Hin as [Hin|Hin]; [discriminate Hin|]); contradiction.
  - intros address e Ha Hb. rewrite Ha.
    step_calls; try reflexivity; congruence.
Qed.

(** X21. Whenever the swap call is issued, both amounts were read by the
    library and the call carries them, the path and the deadline as
    given, with the connected account as the recipient. *)
Theorem swap_goes_to_the_account {E : Ethers} (w : Wallet)
    (router : option SwapRouter) (amountIn amountOutMin : string)
    (path : list string) (deadline : Z) (args : list Arg) :
  In (OpCall OnRouter "swapExactTokensForTokens" args)
     (Tr.trace (DexHook.swapExactTokensForTokens w router amountIn amountOutMin
                  path deadline)) ->
  exists a m acct,
    parseEther amountIn = inr a /\
    parseEther amountOutMin = inr m /\
    account w = Some acct /\ JS.truthyStr acct = true /\
    args = [ANum a; ANum m; APath path; AStr acct; ANum deadline].
Proof.
  unfold DexHook.swapExactTokensForTokens. run_tr.
  step_calls; intros Hin; simpl in Hin;
    repeat (destruct Hin as [Hin|Hin]; [try discriminate Hin|]);
    try contradiction.
  all: injection Hin as <-; eexists; eexists; eexists; repeat split; eassumption.
Qed.



(** X22. For one failing contract call, the bridge hook and the DEX hook
    report unmet requirements and the staking hook raises the error;
    without a contract, the bridge hook raises and the DEX and staking
    hooks report unmet requirements without a call. *)
Theorem fee_check_three_ways (w : Wallet) (bridge : BridgeCore)
    (router : Router) (staking : StakingContract) (address : string)
    (e : JS.Error) :
  JS.truthyStr address = true ->
  bc_checkFeeRequirements bridge address = inl e ->
  rt_checkFeeRequirements router address = inl e ->
  sk_checkFeeRequirements staking address = inl e ->
  (outcome (UseBridgeContract.checkFeeRequirements w (Some bridge) (Some address))
   = inr UseBridgeContract.unmet /\
   outcome (UseDexContract.checkFeeRequirements w (Some router) (Some address))
   = inr UseBridgeContract.unmet /\
   Tr.outcome (UseStakingContract.checkFeeRequirements (Some staking) address)
   = inl e) /\
  (JS.isOk (outcome (UseBridgeContract.checkFeeRequirements w None (Some address)))
   = false /\
   UseDexContract.checkFeeRequirements w None (Some address)
   = ([], inr UseBridgeContract.unmet) /\
   UseStakingContract.checkFeeRequirements None address
   = ([], inr UseBridgeContract.unmet)).
Proof.
  intros Ht Hb Hr Hs.
  unfold UseBridgeContract.checkFeeRequirements,
    UseDexContract.checkFeeRequirements,
    UseStakingContract.checkFeeRequirements, JS.orElse.
  simpl. rewrite Ht. run_m. run_tr. rewrite ?Ht, Hb, Hr, Hs. rewrite ?Ht.
  repeat split.
Qed.

(** X23. Whenever [stakeESR] issues the stake call, the allowance of the
    account for the staking address was read first and, exactly when it
    is below the amount, an approval for the amount was sent and
    confirmed before the stake call. *)
Theorem stakeESR_authorizes_first {E : Ethers} (w : Wallet)
    (stakingContract : option StakingContract) (esrContract : option Erc20)
    (getContractAddresses : option Z -> option Addresses)
    (amount : string) (A : Z) :
  In (OpCall OnStaking "stake" [ANum A])
     (Tr.trace (UseStakingContract.stakeESR w stakingContract esrContract
                  getContractAddresses amount)) ->
  exists esr acct addresses al rest,
    esrContract = Some esr /\
    account w = Some acct /\
    getContractAddresses (chainId w) = Some addresses /\
    parseEther amount = inr A /\
    erc_allowance esr acct (addr_staking addresses) = inr al /\
    (al < A -> exists receipt,
       erc_approve esr (addr_staking addresses) A = inr (inr receipt)) /\
    Tr.trace (UseStakingContract.stakeESR w stakingContract esrContract
                getContractAddresses amount)
    = ([OpCall OnEsr "allowance" [AStr acct; AStr (addr_staking addresses)]]
       ++ (if al <? A
           then [OpCall OnEsr "approve" [AStr (addr_staking addresses); ANum A];
                 OpWait "approve"]
           else [])
       ++ OpCall OnStaking "stake" [ANum A] :: rest)%list.
Proof.
  unfold UseStakingContract.stakeESR. run_tr.
  step_calls; intros Hin; simpl in Hin;
    repeat (destruct Hin as [Hin|Hin]; [try discriminate Hin|]);
    try contradiction.
  all: injection Hin as ->.
  all: eexists; eexists; eexists; exists z0; eexists;
    repeat split; try eassumption; try reflexivity;
    [ intros Hlt; first [ eexists; eassumption
                        | apply Z.ltb_ge in Hcall4; lia ]
    | rewrite Hcall4; reflexivity ].
Qed.

(** X24. Whenever [deposit] issues the deposit call, the pool was read,
    then the signer, then the account's allowance on the pool's LP token
    for the farming address and, exactly when it is below the amount, an
    approval for the amount was sent and confirmed before the deposit
    call. *)
Theorem deposit_authorizes_first {E : Ethers} (w : Wallet)
    (farmingContract : option FarmingContract)
    (getContractAddresses : option Z -> option Addresses)
    (pid : Z) (amount : string) (A : Z) :
  In (OpCall OnFarming "deposit" [ANum pid; ANum A])
     (Tr.trace (UseFarmingContract.deposit w farmingContract
                  getContractAddresses pid amount)) ->
  exists farming acct addresses pool al rest,
    farmingContract = Some farming /\
    account w = Some acct /\
    getContractAddresses (chainId w) = Some addresses /\
    JS.truthyStr (addr_farming addresses) = true /\
    fm_getPoolInfo farming pid = inr pool /\
    parseEther amount = inr A /\
    erc_allowance (tokenAt w (lpToken pool)) acct (addr_farming addresses) = inr al /\
    (al < A -> exists receipt,
       erc_approve (tokenAt w (lpToken pool)) (addr_farming addresses) A
       = inr (inr receipt)) /\
    Tr.trace (UseFarmingContract.deposit w farmingContract
                getContractAddresses pid amount)
    = ([OpCall OnFarming "getPoolInfo" [ANum pid];
        OpCall OnWallet "getSigner" [];
        OpCall (OnToken (lpToken pool)) "allowance"
          [AStr acct; AStr (addr_farming addresses)]]
       ++ (if al <? A
           then [OpCall (OnToken (lpToken pool)) "approve"
                   [AStr (addr_farming addresses); ANum A];
                 OpWait "approve"]
           else [])
       ++ OpCall OnFarming "deposit" [ANum pid; ANum A] :: rest)%list.
Proof.
  unfold UseFarmingContract.deposit, UseFarmingContract.getLPContract. run_tr.
  step_calls; intros Hin; simpl in Hin;
    repeat (destruct Hin as [Hin|Hin]; [try discriminate Hin|]);
    try contradiction.
  all: injection Hin as ->.
  all: eexists; eexists; eexists; eexists; exists z1; eexists;
    repeat split; try eassumption; try reflexivity;
    [ intros Hlt; first [ eexists; eassumption
                        | match goal with
                          | H : (_ <? _) = false |- _ => apply Z.ltb_ge in H; lia
                          end ]
    | match goal with H : (_ <? _) = _ |- _ => rewrite H end; reflexivity ].
Qed.

(** X25. [handleChainSelect] always ends with [isProcessing] false and
    the test network switch untouched; the list closes, without an
    error, exactly when the wallet reports success; otherwise the list
    stays as it was and a message that is not empty is shown, which the
    closing effect leaves in place while the list is open. *)
Theorem handleChainSelect_outcomes (CHAIN_CONFIG : list (Z * ChainConfig))
    (switchChain : Z -> JS.Res bool) (targetChainId : Z)
    (st : ChainSelector.State) :
  let st' := ChainSelector.handleChainSelect CHAIN_CONFIG switchChain
               targetChainId st in
  ChainSelector.isProcessing st' = false /\
  ChainSelector.showTestnets st' = ChainSelector.showTestnets st /\
  (switchChain targetChainId = inr true ->
   ChainSelector.isOpen st' = false /\ ChainSelector.errorMessage st' = None) /\
  (switchChain targetChainId <> inr true ->
   ChainSelector.isOpen st' = ChainSelector.isOpen st /\
   exists msg, ChainSelector.errorMessage st' = Some msg /\ msg <> "" /\
     (ChainSelector.isOpen st = true ->
      ChainSelector.errorMessage (ChainSelector.clearOnClose st') = Some msg)).
Proof.
  intros st'. subst st'. unfold ChainSelector.handleChainSelect.
  destruct (switchChain targetChainId) as [e|[|]]; simpl.
  - split; [reflexivity|]. split; [reflexivity|]. split; [discriminate|].
    intros _. split; [reflexivity|]. eexists. split; [reflexivity|].
    split; [discriminate|].
    unfold ChainSelector.clearOnClose; simpl. now intros ->.
  - split; [reflexivity|]. split; [reflexivity|]. split; [now intros _|].
    intros H. now elim H.
  - split; [reflexivity|]. split; [reflexivity|]. split; [discriminate|].
    intros _. split; [reflexivity|]. eexists. split; [reflexivity|].
    split; [discriminate|].
    unfold ChainSelector.clearOnClose; simpl. now intros ->.
Qed.

Section ChainFacts.
Variable CHAIN_CONFIG : list (Z * ChainConfig).

Lemma availableChains_ids (mode : bool) :
  map ChainOption.id (BridgeChains.availableChains CHAIN_CONFIG mode)
  = map fst (filter (fun entry => Bool.eqb (isTestnet (snd entry)) mode) CHAIN_CONFIG).
Proof.
  unfold BridgeChains.availableChains. rewrite map_map. reflexivity.
Qed.

(** The ids listed for a mode are among the configured ones. *)
Lemma listed_id_configured (mode : bool) (i : Z) :
  In i (map ChainOption.id (BridgeChains.availableChains CHAIN_CONFIG mode)) ->
  In i (map fst CHAIN_CONFIG).
Proof.
  rewrite availableChains_ids.
  induction CHAIN_CONFIG as [|[j config] rest IH]; simpl; [tauto|].
  destruct (Bool.eqb (isTestnet config) mode); simpl; tauto.
Qed.

End ChainFacts.

(** Distinct configured ids give distinct listed ids. *)
Lemma listed_ids_distinct (CHAIN_CONFIG : list (Z * ChainConfig)) (mode : bool) :
  NoDup (map fst CHAIN_CONFIG) ->
  NoDup (map ChainOption.id (BridgeChains.availableChains CHAIN_CONFIG mode)).
Proof.
  induction CHAIN_CONFIG as [|[j config] rest IH]; intros Hd.
  - constructor.
  - apply NoDup_cons_iff in Hd as [Hfresh Hrest].
    unfold BridgeChains.availableChains in *. simpl.
    destruct (Bool.eqb (isTestnet config) mode); simpl; [|now apply IH].
    apply NoDup_cons; [|now apply IH].
    intros Hin. apply Hfresh.
    now apply (listed_id_configured rest mode).
Qed.

(** X26. A chain is listed on the Bridge page in a mode exactly when the
    configuration has it with that mode, with the configured name and
    symbol and the icon of its id; every configured chain is listed in
    one of the two modes. *)
Theorem chains_split_by_mode (CHAIN_CONFIG : list (Z * ChainConfig))
    (mode : bool) (c : ChainOption.t) :
  (In c (BridgeChains.availableChains CHAIN_CONFIG mode) <->
   exists config,
     In (ChainOption.id c, config) CHAIN_CONFIG /\
     isTestnet config = mode /\
     ChainOption.name c = chainName config /\
     ChainOption.symbol c = nativeSymbol config /\
     ChainOption.icon c = getChainIcon (ChainOption.id c)) /\
  (List.length (BridgeChains.availableChains CHAIN_CONFIG true)
   + List.length (BridgeChains.availableChains CHAIN_CONFIG false)
   = List.length CHAIN_CONFIG)%nat.
Proof.
  split.
  - unfold BridgeChains.availableChains. rewrite in_map_iff. split.
    + intros [[i config] [<- Hin]]. apply filter_In in Hin as [Hin Hm].
      simpl in *. apply Bool.eqb_prop in Hm. exists config. repeat split; auto.
    + intros [config [Hin [Hm [Hn [Hs Hi]]]]].
      exists (ChainOption.id c, config). split.
      * destruct c; simpl in *. now subst.
      * apply filter_In. split; [assumption|]. simpl. subst mode.
        apply Bool.eqb_reflx.
  - unfold BridgeChains.availableChains. rewrite !length_map.
    induction CHAIN_CONFIG as [|[i config] l IH]; simpl; [reflexivity|].
    destruct (isTestnet config); simpl; lia.
Qed.

(** In a list of chains with distinct ids, a chain is known by its id. *)
Lemma chain_known_by_id (l : list ChainOption.t) (c c' : ChainOption.t) :
  NoDup (map ChainOption.id l) -> In c l -> In c' l ->
  ChainOption.id c = ChainOption.id c' -> c = c'.
Proof.
  induction l as [|x l IH]; simpl; [tauto|].
  intros Hd Hc Hc' Hid. apply NoDup_cons_iff in Hd as [Hfresh Hd].
  destruct Hc as [->|Hc], Hc' as [->|Hc']; [reflexivity| | |now apply IH].
  - elim Hfresh. rewrite Hid. now apply in_map.
  - elim Hfresh. rewrite <- Hid. now apply in_map.
Qed.

(** Leaving out the chains with one id drops nothing when the id is not in
    the list, and one chain when the ids are distinct and it is. *)
Lemma others_count (l : list ChainOption.t) (i : Z) :
  NoDup (map ChainOption.id l) ->
  (~ In i (map ChainOption.id l) ->
   List.length (filter (fun c => negb (ChainOption.id c =? i)%Z) l)
   = List.length l) /\
  (In i (map ChainOption.id l) ->
   (List.length (filter (fun c => negb (ChainOption.id c =? i)%Z) l) + 1
    = List.length l)%nat).
Proof.
  induction l as [|x l IH]; simpl; intros Hd.
  - split; [reflexivity|tauto].
  - apply NoDup_cons_iff in Hd as [Hfresh Hd].
    destruct (IH Hd) as [Hout Hin].
    destruct (Z.eqb_spec (ChainOption.id x) i) as [Heq|Hne]; simpl.
    + split; [intros H; elim H; now left|].
      intros _. rewrite Hout; [lia|]. now rewrite <- Heq.
    + split.
      * intros H. rewrite Hout; [reflexivity|]. intros Hi. apply H. now right.
      * intros [H|H]; [contradiction|]. rewrite <- (Hin H). reflexivity.
Qed.

(** X27. With distinct chain ids in the configuration and a source chain
    that is listed, the "To" list offers the listed chains but the source:
    it does not contain the source, it contains every other listed chain,
    and it is one shorter than the list of chains. *)
Theorem destination_options_are_the_others
    (CHAIN_CONFIG : list (Z * ChainConfig)) (mode : bool)
    (fromChain : ChainOption.t) :
  NoDup (map fst CHAIN_CONFIG) ->
  In fromChain (BridgeChains.availableChains CHAIN_CONFIG mode) ->
  ~ In fromChain (BridgeChains.toOptions CHAIN_CONFIG mode fromChain) /\
  (forall c, In c (BridgeChains.availableChains CHAIN_CONFIG mode) ->
             c <> fromChain ->
             In c (BridgeChains.toOptions CHAIN_CONFIG mode fromChain)) /\
  (List.length (BridgeChains.toOptions CHAIN_CONFIG mode fromChain) + 1
   = List.length (BridgeChains.availableChains CHAIN_CONFIG mode))%nat.
Proof.
  intros Hd Hfrom.
  pose proof (listed_ids_distinct CHAIN_CONFIG mode Hd) as Hids.
  unfold BridgeChains.toOptions.
  split; [|split].
  - intros Hin. apply filter_In in Hin as [_ H].
    rewrite Z.eqb_refl in H. discriminate H.
  - intros c Hc Hne. apply filter_In. split; [assumption|].
    destruct (Z.eqb_spec (ChainOption.id c) (ChainOption.id fromChain)) as [Heq|_];
      [|reflexivity].
    elim Hne. now apply (chain_known_by_id _ c fromChain Hids).
  - apply (others_count _ (ChainOption.id fromChain) Hids). now apply in_map.
Qed.

(** X28. With distinct chain ids in the configuration, the source and
    destination chains the page starts with differ, unless the only
    chain listed in the mode is chain 56. *)
Theorem initial_chains_differ (CHAIN_CONFIG : list (Z * ChainConfig))
    (mode : bool) :
  NoDup (map fst CHAIN_CONFIG) ->
  ChainOption.id (BridgeChains.initialFromChain CHAIN_CONFIG mode)
  = ChainOption.id (BridgeChains.initialToChain CHAIN_CONFIG mode) ->
  exists c, BridgeChains.availableChains CHAIN_CONFIG mode = [c] /\
            ChainOption.id c = 56.
Proof.
  intros Hnd.
  pose proof (listed_ids_distinct CHAIN_CONFIG mode Hnd) as Hnd'.
  unfold BridgeChains.initialFromChain, BridgeChains.initialToChain.
  destruct (BridgeChains.availableChains CHAIN_CONFIG mode) as [|c0 [|c1 rest]];
    simpl in *.
  - discriminate.
  - intros H. now exists c0.
  - intros H. inversion Hnd' as [|x xs Hnin _]; subst.
    elim Hnin. left. now symmetry.
Qed.

(* ================================================================== *)
(** ** The properties above at concrete inputs *)

Lemma lockTokens_calls_need_everything_witness :
  exists bridge acct A,
    Some Scenario.healthy = Some bridge /\
    account (Scenario.wallet 0) = Some acct /\ JS.truthyStr acct = true /\
    provider (Scenario.wallet 0) = Some (inr tt) /\
    parseEther "500" = inr A.
Proof.
  apply (lockTokens_calls_need_everything (Scenario.wallet 0)
           (Some Scenario.healthy) Scenario.nativeToken "500" 56 None EGetAddress).
  - vm_compute. tauto.
  - discriminate.
Defined.

Lemma lockTokens_success_shape_witness :
  exists bridge A d pre,
    Some Scenario.healthy = Some bridge /\
    parseEther "500" = inr A /\
    bc_lockTokens bridge Scenario.nativeToken A 56 d = inr (inr "0x10c4ed") /\
    trace (UseBridgeContract.lockTokens (Scenario.wallet 0) (Some Scenario.healthy)
             Scenario.nativeToken "500" 56 None)
    = (pre ++ [ELockTokens Scenario.nativeToken A 56 d; ESubmitWait])%list /\
    Observe.allowanceReadFirst false pre = true /\
    forallb (fun e => negb (Observe.isTransfer e)) pre = true.
Proof.
  apply (lockTokens_success_shape (Scenario.wallet 0) (Some Scenario.healthy)
           Scenario.nativeToken "500" 56 None "0x10c4ed").
  reflexivity.
Defined.

Lemma failed_approval_blocks_lock_witness :
  let run := UseBridgeContract.lockTokens (Scenario2.walletReverting 0)
               (Some Scenario.healthy) Scenario.nativeToken "500" 56 None in
  outcome run = inl Scenario.rpcError /\
  forallb (fun ev => negb (Observe.isTransfer ev)) (trace run) = true.
Proof.
  intros run.
  apply (failed_approval_blocks_lock (Scenario2.walletReverting 0)
           (Some Scenario.healthy) Scenario.nativeToken "500" 56 None
           Scenario.bridgeAddress (500 * 10 ^ 18) Scenario.rpcError).
  - vm_compute. tauto.
  - right. reflexivity.
Defined.

Lemma transfer_destination_is_set_witness :
  Scenario.nativeToken = Scenario.nativeToken /\ 56 = 56 /\
  parseEther "500" = inr (500 * 10 ^ 18) /\
  JS.truthyStr Scenario.me = true /\
  (JS.truthy None = true -> None = Some Scenario.me) /\
  (JS.truthy None = false -> account (Scenario.wallet 0) = Some Scenario.me).
Proof.
  apply (transfer_destination_is_set (Scenario.wallet 0) (Some Scenario.healthy)
           Scenario.nativeToken "500" 56 None
           Scenario.nativeToken (500 * 10 ^ 18) 56 Scenario.me).
  left. vm_compute. tauto.
Defined.

Lemma getTransaction_reports_ledger_witness :
  exists r : BridgeTransaction.t,
    UseBridgeContract.getTransaction (E := EthersV6.ethers)
      (Some Scenario2.recording) "0xabc"
    = ([EGetTransaction "0xabc"], inr r) /\
    BridgeTransaction.status r = 2 /\
    BridgeTransaction.amount r = "5.0" /\
    BridgeTransaction.fee r = "0.125".
Proof.
  destruct (getTransaction_reports_ledger Scenario2.recording "0xabc"
              Scenario2.released eq_refl) as [r [Hr [Hs [_ [_ [_ [_ [_ [Ha Hf]]]]]]]]].
  - intros a H. injection H as <-. reflexivity.
  - intros a H. injection H as <-. reflexivity.
  - exists r. split; [exact Hr|]. split; [exact Hs|].
    specialize (Ha (5 * 10 ^ 18) eq_refl). specialize (Hf (125 * 10 ^ 15) eq_refl).
    split.
    + specialize (Ha ltac:(lia)).
      assert (H : EthersV6.format (5 * 10 ^ 18) = inr "5.0") by reflexivity.
      rewrite H in Ha. injection Ha as Ha. now symmetry.
    + specialize (Hf ltac:(lia)).
      assert (H : EthersV6.format (125 * 10 ^ 15) = inr "0.125") by reflexivity.
      rewrite H in Hf. injection Hf as Hf. now symmetry.
Defined.

Lemma handleBridge_outcomes_witness :
  let st := Scenario.page Scenario.nativeToken "1" 56 in
  let st' := fst (Bridge.handleBridge Scenario.getTokensByChain
                    (Scenario2.walletReverting 0) (Some Scenario.healthy) st) in
  let t := snd (Bridge.handleBridge Scenario.getTokensByChain
                  (Scenario2.walletReverting 0) (Some Scenario.healthy) st) in
  Bridge.isBridging st' = false /\
  Bridge.selectedToken st' = Bridge.selectedToken st /\
  Bridge.fromChain st' = Bridge.fromChain st /\
  Bridge.toChain st' = Bridge.toChain st /\
  Bridge.bridgeFee st' = Bridge.bridgeFee st /\
  Bridge.feeWarning st' = Bridge.feeWarning st /\
  ((Shown.alerts t = [Bridge.failedMessage] /\
    Bridge.amount st' = Bridge.amount st /\
    Bridge.destinationAddress st' = Bridge.destinationAddress st /\
    Bridge.userTransactions st' = Bridge.userTransactions st) \/
   (Shown.alerts t = [Bridge.initiatedMessage] /\
    Bridge.amount st' = "" /\
    Bridge.destinationAddress st' = "")).
Proof.
  intros st.
  apply (handleBridge_outcomes Scenario.getTokensByChain
           (Scenario2.walletReverting 0) (Some Scenario.healthy) st);
    reflexivity.
Defined.

Lemma click_submits_only_when_ready_witness :
  let st := Scenario.page Scenario.nativeToken "1" 56 in
  isConnected (Scenario.wallet 0) = true /\
  Bridge.amount st <> "" /\
  JS.le0 (JS.parseFloat (Bridge.amount st)) = false /\
  Bridge.selectedToken st <> "" /\
  Bridge.isBridging st = false /\
  Bridge.feeWarning st = "".
Proof.
  intros st.
  apply (click_submits_only_when_ready Scenario.getTokensByChain
           (Scenario.wallet 0) (Some Scenario.healthy) st).
  vm_compute. discriminate.
Defined.

Lemma unlisted_token_path_witness :
  snd (Bridge.handleBridge Scenario.getTokensByChain (Scenario.wallet 0)
         (Some Scenario.healthy) (Scenario.page "0x0DD" "1" 56))
  = [EHookBurnAndBridge "0x0DD" "1" 56 (Some Scenario.me);
     EBurnAndBridge "0x0DD" (10 ^ 18) 56 Scenario.me; ESubmitWait;
     EAlert Bridge.initiatedMessage; EGetUserTransactions Scenario.me].
Proof.
  destruct (unlisted_token_path Scenario.getTokensByChain (Scenario.wallet 0)
              (Some Scenario.healthy) (Scenario.page "0x0DD" "1" 56)
              eq_refl eq_refl eq_refl eq_refl) as [Hburn _].
  - intros t Hin. vm_compute in Hin.
    destruct Hin as [<-|[<-|[]]]; discriminate.
  - destruct Hburn as [Ht _]; [right; reflexivity|].
    rewrite Ht. reflexivity.
Defined.

Lemma estimatedTime_symmetric_witness :
  let st := Scenario.page Scenario.nativeToken "1" 43114 in
  let st' := {| Bridge.fromChain := 43114; Bridge.toChain := 1;
                Bridge.amount := "1"; Bridge.destinationAddress := "";
                Bridge.selectedToken := Scenario.nativeToken;
                Bridge.bridgeFee := "0"; Bridge.isBridging := false;
                Bridge.userTransactions := []; Bridge.feeWarning := "" |} in
  Bridge.estimatedTime st' = Bridge.estimatedTime st /\
  Bridge.estimatedTime st = "2-5 minutes".
Proof.
  intros st st'.
  destruct (estimatedTime_symmetric st st' eq_refl eq_refl) as [H [Hfast _]].
  split; [exact H|]. apply Hfast. right. reflexivity.
Defined.

Lemma unverifiable_fee_check_blocks_witness :
  let st := Scenario.page Scenario.nativeToken "1" 56 in
  Bridge.checkUSDTFeeRequirements (Scenario.wallet 0) None st
  = (Bridge.setFeeWarning Bridge.cannotVerifyMessage st, []) /\
  Bridge.bridgeDisabled (Scenario.wallet 0)
    (fst (Bridge.checkUSDTFeeRequirements (Scenario.wallet 0) None st)) = true.
Proof.
  intros st.
  apply (unverifiable_fee_check_blocks (Scenario.wallet 0) st). reflexivity.
Defined.

Lemma estimateFee_shows_zero_on_failure_witness :
  let st := Scenario.page Scenario.nativeToken "1e2" 56 in
  fst (Bridge.estimateFee (Some Scenario.healthy) st) = Bridge.setBridgeFee "0" st.
Proof.
  intros st.
  apply (estimateFee_shows_zero_on_failure (Some Scenario.healthy) st);
    [reflexivity | reflexivity |].
  right. eexists. reflexivity.
Defined.

Lemma getPairReserves_masks_reserves_witness :
  exists r : PairReserves.t,
    Tr.outcome (DexHook.getPairReserves (Scenario.wallet 0) Scenario2.pair "0x9A12")
    = inr r.
Proof.
  destruct (getPairReserves_masks_reserves (Scenario.wallet 0) Scenario2.pair
              "0x9A12" (inr tt) eq_refl) as [H _].
  exact H.
Defined.

Lemma swap_goes_to_the_account_witness :
  exists a m acct,
    parseEther "1" = inr a /\
    parseEther "0.9" = inr m /\
    account (Scenario.wallet 0) = Some acct /\ JS.truthyStr acct = true /\
    [ANum (10 ^ 18); ANum (9 * 10 ^ 17); APath ["0x7A11"; "0x3E77"];
     AStr Scenario.me; ANum 99]
    = [ANum a; ANum m; APath ["0x7A11"; "0x3E77"]; AStr acct; ANum 99].
Proof.
  apply (swap_goes_to_the_account (Scenario.wallet 0) (Some Scenario2.swapRouter)
           "1" "0.9" ["0x7A11"; "0x3E77"] 99).
  vm_compute. tauto.
Defined.

Lemma fee_check_three_ways_witness :
  let w := Scenario.wallet 0 in
  (outcome (UseBridgeContract.checkFeeRequirements w (Some Scenario.unreachable)
              (Some Scenario.me))
   = inr UseBridgeContract.unmet /\
   outcome (UseDexContract.checkFeeRequirements w
              (Some (Scenario.router (inl Scenario.rpcError))) (Some Scenario.me))
   = inr UseBridgeContract.unmet /\
   Tr.outcome (UseStakingContract.checkFeeRequirements (Some Scenario2.staking)
                 Scenario.me)
   = inl Scenario.rpcError) /\
  (JS.isOk (outcome (UseBridgeContract.checkFeeRequirements w None (Some Scenario.me)))
   = false /\
   UseDexContract.checkFeeRequirements w None (Some Scenario.me)
   = ([], inr UseBridgeContract.unmet) /\
   UseStakingContract.checkFeeRequirements None Scenario.me
   = ([], inr UseBridgeContract.unmet)).
Proof.
  intros w.
  apply (fee_check_three_ways w Scenario.unreachable
           (Scenario.router (inl Scenario.rpcError)) Scenario2.staking
           Scenario.me Scenario.rpcError); reflexivity.
Defined.

Lemma stakeESR_authorizes_first_witness :
  exists esr acct addresses al rest,
    Some (Scenario.erc20 0) = Some esr /\
    account (Scenario.wallet 0) = Some acct /\
    Scenario2.addresses (chainId (Scenario.wallet 0)) = Some addresses /\
    parseEther "10" = inr (10 * 10 ^ 18) /\
    erc_allowance esr acct (addr_staking addresses) = inr al /\
    (al < 10 * 10 ^ 18 -> exists receipt,
       erc_approve esr (addr_staking addresses) (10 * 10 ^ 18) = inr (inr receipt)) /\
    Tr.trace (UseStakingContract.stakeESR (Scenario.wallet 0)
                (Some Scenario2.staking) (Some (Scenario.erc20 0))
                Scenario2.addresses "10")
    = ([OpCall OnEsr "allowance" [AStr acct; AStr (addr_staking addresses)]]
       ++ (if al <? 10 * 10 ^ 18
           then [OpCall OnEsr "approve"
                   [AStr (addr_staking addresses); ANum (10 * 10 ^ 18)];
                 OpWait "approve"]
           else [])
       ++ OpCall OnStaking "stake" [ANum (10 * 10 ^ 18)] :: rest)%list.
Proof.
  apply (stakeESR_authorizes_first (Scenario.wallet 0) (Some Scenario2.staking)
           (Some (Scenario.erc20 0)) Scenario2.addresses "10" (10 * 10 ^ 18)).
  vm_compute. tauto.
Defined.

Lemma deposit_authorizes_first_witness :
  exists farming acct addresses pool al rest,
    Some Scenario2.farming = Some farming /\
    account (Scenario.wallet 0) = Some acct /\
    Scenario2.addresses (chainId (Scenario.wallet 0)) = Some addresses /\
    JS.truthyStr (addr_farming addresses) = true /\
    fm_getPoolInfo farming 2 = inr pool /\
    parseEther "10" = inr (10 * 10 ^ 18) /\
    erc_allowance (tokenAt (Scenario.wallet 0) (lpToken pool)) acct
      (addr_farming addresses) = inr al /\
    (al < 10 * 10 ^ 18 -> exists receipt,
       erc_approve (tokenAt (Scenario.wallet 0) (lpToken pool))
         (addr_farming addresses) (10 * 10 ^ 18) = inr (inr receipt)) /\
    Tr.trace (UseFarmingContract.deposit (Scenario.wallet 0)
                (Some Scenario2.farming) Scenario2.addresses 2 "10")
    = ([OpCall OnFarming "getPoolInfo" [ANum 2];
        OpCall OnWallet "getSigner" [];
        OpCall (OnToken (lpToken pool)) "allowance"
          [AStr acct; AStr (addr_farming addresses)]]
       ++ (if al <? 10 * 10 ^ 18
           then [OpCall (OnToken (lpToken pool)) "approve"
                   [AStr (addr_farming addresses); ANum (10 * 10 ^ 18)];
                 OpWait "approve"]
           else [])
       ++ OpCall OnFarming "deposit" [ANum 2; ANum (10 * 10 ^ 18)] :: rest)%list.
Proof.
  apply (deposit_authorizes_first (Scenario.wallet 0) (Some Scenario2.farming)
           Scenario2.addresses 2 "10" (10 * 10 ^ 18)).
  vm_compute. tauto.
Defined.

Lemma initial_chains_differ_witness :
  exists c, BridgeChains.availableChains Scenario2.bscOnly false = [c] /\
            ChainOption.id c = 56.
Proof.
  apply (initial_chains_differ Scenario2.bscOnly false).
  - simpl. repeat constructor; simpl; intuition discriminate.
  - reflexivity.
Defined.

Lemma burnAndBridge_success_shape_witness :
  exists bridge A d,
    Some Scenario.healthy = Some bridge /\
    parseEther "500" = inr A /\
    bc_burnAndBridge bridge Scenario.wrappedToken A 56 d = inr (inr "0xb042ed") /\
    trace (UseBridgeContract.burnAndBridge (Scenario.wallet 0)
             (Some Scenario.healthy) Scenario.wrappedToken "500" 56 None)
    = [EBurnAndBridge Scenario.wrappedToken A 56 d; ESubmitWait].
Proof.
  destruct (burnAndBridge_success_shape (Scenario.wallet 0)
              (Some Scenario.healthy) Scenario.wrappedToken "500" 56 None)
    as [H _].
  apply (H "0xb042ed"). reflexivity.
Defined.

Lemma getTransaction_never_raises_witness :
  exists tx : BridgeTransaction.t,
    outcome (UseBridgeContract.getTransaction (Some Scenario.unreachable) "0xdef")
    = inr tx /\
    JS.truthyStr (BridgeTransaction.txId tx) = true.
Proof.
  destruct (getTransaction_never_raises (Some Scenario.unreachable) "0xdef")
    as [tx [H [_ Hid]]].
  exists tx. split; [exact H | apply Hid; reflexivity].
Defined.

Lemma estimateBridgeFee_never_raises_witness :
  outcome (UseBridgeContract.estimateBridgeFee (Some Scenario.healthy)
             Scenario.nativeToken "1e2") = inr "0".
Proof.
  destruct (estimateBridgeFee_never_raises Scenario.healthy Scenario.nativeToken
              "1e2") as [_ [_ H]].
  apply (H (JS.Thrown "invalid FixedNumber string value")). reflexivity.
Defined.

Lemma getUserTransactions_reads_one_address_witness :
  exists l : list string,
    outcome (UseBridgeContract.getUserTransactions (Scenario.wallet 0)
               (Some Scenario.unreachable) (Some "0xB0B")) = inr l.
Proof.
  destruct (getUserTransactions_reads_one_address (Scenario.wallet 0)
              (Some Scenario.unreachable) (Some "0xB0B")) as [H _].
  exact H.
Defined.

Lemma checkFeeRequirements_raises_iff_witness :
  JS.isOk (outcome (UseBridgeContract.checkFeeRequirements (Scenario.wallet 0)
                      None (Some Scenario.me))) = false.
Proof.
  apply (checkFeeRequirements_raises_iff (Scenario.wallet 0) None
           (Some Scenario.me)).
  left. reflexivity.
Defined.

Lemma getAllPairs_keeps_readable_pairs_witness :
  Tr.outcome (DexHook.getAllPairs (Some Scenario2.factory))
  = inr ["0xPAIR0"; "0xPAIR2"].
Proof.
  destruct (getAllPairs_keeps_readable_pairs Scenario2.factory) as [H _].
  unfold Tr.outcome. rewrite (H 3 eq_refl). reflexivity.
Defined.

Lemma getAmountsOut_quote_or_zero_witness :
  DexHook.getAmountsOut (Some Scenario2.swapRouter) "x" ["0x7A11"; "0x3E77"]
  = ([], inr ["x"; "0"]).
Proof.
  destruct (getAmountsOut_quote_or_zero Scenario2.swapRouter "x"
              ["0x7A11"; "0x3E77"]) as [_ [H _]].
  apply (H (JS.Thrown "invalid FixedNumber string value")). reflexivity.
Defined.

Lemma getTokenBalance_never_raises_witness :
  Tr.outcome (DexHook.getTokenBalance (Scenario.wallet 0)
                (fun _ _ => inl Scenario.rpcError) Scenario.nativeToken None)
  = inr "0".
Proof.
  destruct (getTokenBalance_never_raises (Scenario.wallet 0)
              (fun _ _ => inl Scenario.rpcError) Scenario.nativeToken None)
    as [_ [_ H]].
  apply (H Scenario.me Scenario.rpcError); reflexivity.
Defined.

Lemma handleChainSelect_outcomes_witness :
  let st' := ChainSelector.handleChainSelect Scenario2.chains
               (fun _ => inr false) 56 Scenario2.selector in
  ChainSelector.isOpen st' = true /\
  exists msg, ChainSelector.errorMessage st' = Some msg /\ msg <> "".
Proof.
  intros st'.
  destruct (handleChainSelect_outcomes Scenario2.chains (fun _ => inr false) 56
              Scenario2.selector) as [_ [_ [_ H]]].
  destruct H as [Hopen [msg [Hmsg [Hne _]]]]; [discriminate|].
  split; [exact Hopen|]. exists msg. split; [exact Hmsg | exact Hne].
Defined.

Lemma chains_split_by_mode_witness :
  In {| ChainOption.id := 56; ChainOption.name := "BSC";
        ChainOption.symbol := "BNB"; ChainOption.icon := getChainIcon 56 |}
     (BridgeChains.availableChains Scenario2.chains false).
Proof.
  apply (chains_split_by_mode Scenario2.chains false).
  exists {| chainName := "BSC"; isTestnet := false; nativeSymbol := "BNB" |}.
  simpl. tauto.
Defined.

Lemma destination_options_are_the_others_witness :
  let bsc := {| ChainOption.id := 56; ChainOption.name := "BSC";
                ChainOption.symbol := "BNB"; ChainOption.icon := getChainIcon 56 |} in
  ~ In bsc (BridgeChains.toOptions Scenario2.chains false bsc) /\
  (List.length (BridgeChains.toOptions Scenario2.chains false bsc) + 1
   = List.length (BridgeChains.availableChains Scenario2.chains false))%nat.
Proof.
  intros bsc.
  destruct (destination_options_are_the_others Scenario2.chains false bsc)
    as [Hnot [_ Hlen]].
  - simpl. repeat constructor; simpl; intuition discriminate.
  - simpl. tauto.
  - split; [exact Hnot | exact Hlen].
Defined.
